(** * ds_utils/evaluate.py: cross-validation, ensembling and weight search

    A shallow embedding of the evaluation module of [ds_utils]:
    [cross_validate], [EnsembleRegressor.predict],
    [get_cross_validation_models], [evaluate_ensemble_weights] and
    [optimize_ensemble], together with the small parts of numpy,
    scikit-learn and the Python object model that these functions rely on.

    Conventions.
    - Python exceptions are values of [exn]; a call returns [result A].
    - Objects live in a store ([heap]); a model is a reference ([addr]) and
      [fit] updates the store in place, as a Python method does.
    - Array entries range over an abstract number type with the operations
      of class [Num]; [float_num] instantiates it with binary64 floats (what
      numpy computes with) and [Q_num] with exact rationals.
    - [print] calls are not modelled: no function below reads what was
      printed. *)

From Stdlib Require Import PrimFloat Uint63 QArith.
From stdpp Require Import gmap strings list fin_maps.

Open Scope nat_scope.

(** ** Numbers *)

Class Num (num : Type) := {
  nzero : num;
  nunit : num;
  nadd : num -> num -> num;
  nmul : num -> num -> num;
  ndiv : num -> num -> num;
  nopp : num -> num;
  nof_nat : nat -> num
}.

(** The two identities of exact arithmetic that the weight objective is
    specified with: products commute and [-1 * v] is the negation of [v]. *)
Class NumLaws (num : Type) `{Num num} : Prop := {
  nmul_comm : forall a b : num, nmul a b = nmul b a;
  nmul_neg_one : forall v : num, nmul (nopp nunit) v = nopp v
}.

#[export] Instance float_num : Num float := {|
  nzero := 0%float;
  nunit := 1%float;
  nadd := PrimFloat.add;
  nmul := PrimFloat.mul;
  ndiv := PrimFloat.div;
  nopp := PrimFloat.opp;
  nof_nat := fun n => PrimFloat.of_uint63 (Uint63.of_Z (Z.of_nat n))
|}.

#[export] Instance Q_num : Num Q := {|
  nzero := 0%Q;
  nunit := 1%Q;
  nadd := Qplus;
  nmul := Qmult;
  ndiv := Qdiv;
  nopp := Qopp;
  nof_nat := fun n => inject_Z (Z.of_nat n)
|}.

(** ** Exceptions *)

Inductive exn := TypeError | ValueError | IndexError.

Inductive result (A : Type) :=
| Ok (a : A)
| Raise (e : exn).
Arguments Ok {A} a.
Arguments Raise {A} e.

#[export] Instance result_ret : MRet result := fun A a => Ok a.
#[export] Instance result_bind : MBind result := fun A B k r =>
  match r with
  | Ok a => k a
  | Raise e => Raise e
  end.

#[export] Instance result_fmap : FMap result := fun A B f r =>
  match r with
  | Ok a => Ok (f a)
  | Raise e => Raise e
  end.

Definition returns {A} (r : result A) : Prop := exists a, r = Ok a.
Definition raises {A} (r : result A) : Prop := exists e, r = Raise e.

(** ** Objects and the store *)

Definition addr := nat.

Section Store.
Context {num : Type}.

(** An attribute holds a number, an array, or a reference to an object. *)
Inductive value :=
| VNum (v : num)
| VVec (l : list num)
| VRef (a : addr).

(** An object is its attribute dictionary ([__dict__]); the store maps an
    address to the object allocated there. *)
Definition heap := list (gmap string value).

(** [copy.copy(obj)]: a new object whose dictionary has the same entries;
    an attribute that is a reference still points to the same object.
    An array attribute ([VVec]) is an entry of the dictionary: it stands
    for an array that methods bind and rebind but never write in place.
    [copy.copy] shares the array object with the original, so an array that
    a method writes in place is not a [VVec]: it is an object of the store,
    held through a reference, like any other shared object. *)
Definition copy_copy (a : addr) (h : heap) : heap * addr :=
  (h ++ [default ∅ (h !! a)], length h).
End Store.
Arguments value : clear implicits.
Arguments heap : clear implicits.

(** ** The parts of numpy the module uses *)

Section Numpy.
Context {num : Type} `{Num num}.

(** What a Python name can be bound to in these functions. [NdScalar] is a
    [numpy.float64]; [NdObject0] is the 0-dimensional array of dtype
    [object] that [np.array] builds around a value it cannot iterate at
    construction, such as a generator; [Nd1] and [Nd2] are arrays of one
    and two dimensions; [PyEnsemble] is an [EnsembleRegressor] with the
    given [models] list; [PyPair] is a 2-tuple. *)
Inductive pyval :=
| NdScalar (v : num)
| NdObject0
| Nd1 (l : list num)
| Nd2 (rows : list (list num))
| PyEnsemble (models : list addr)
| PyPair (a b : pyval).

(** The argument of [np.array(...)]: a list of equal-length rows, or a
    generator expression. A generator is lazy: its items are computed
    when it is iterated. *)
Inductive array_like :=
| OfRows (rows : list (list num))
| OfGenerator (items : unit -> list (list num)).

(** [np.array] does not iterate a generator. *)
Definition np_array (a : array_like) : pyval :=
  match a with
  | OfRows rows => Nd2 rows
  | OfGenerator _ => NdObject0
  end.

(** [len(v)]: a scalar has no [len]; a 0-d array is unsized. *)
Definition py_len (v : pyval) : result nat :=
  match v with
  | NdScalar _ => Raise TypeError
  | NdObject0 => Raise TypeError
  | Nd1 l => Ok (length l)
  | Nd2 rows => Ok (length rows)
  | PyEnsemble _ => Raise TypeError
  | PyPair _ _ => Ok 2
  end.

(** [v[0]] *)
Definition py_first (v : pyval) : result pyval :=
  match v with
  | Nd1 (a :: _) => Ok (NdScalar a)
  | Nd2 (r :: _) => Ok (Nd1 r)
  | PyPair a _ => Ok a
  | Nd1 [] | Nd2 [] => Raise IndexError
  | NdScalar _ | NdObject0 => Raise IndexError
  | PyEnsemble _ => Raise TypeError
  end.

(** Iterating a two-dimensional array yields its rows. *)
Definition py_rows (v : pyval) : result (list (list num)) :=
  match v with
  | Nd2 rows => Ok rows
  | _ => Raise TypeError
  end.

Definition np_zeros (n : nat) : list num := replicate n nzero.
Definition np_ones (n : nat) : list num := replicate n nunit.

(** [np.sum] and [np.mean] of a one-dimensional array; the mean of an
    empty array is [0/0], not an exception. *)
Definition np_sum (a : list num) : num := foldl nadd nzero a.
Definition np_mean (a : list num) : num := ndiv (np_sum a) (nof_nat (length a)).

(** [a[idx]] with an integer index array: the entries at [idx], in the
    order of [idx]; an index out of range raises [IndexError]. *)
Definition gather {A} (a : list A) (idx : list nat) : list A :=
  omap (fun i => a !! i) idx.

Definition take {A} (a : list A) (idx : list nat) : result (list A) :=
  if forallb (fun i => i <? length a) idx
  then Ok (gather a idx)
  else Raise IndexError.

(** [a[idx] = vals]: entry [idx[j]] becomes [vals[j]]; a single value is
    broadcast to all of [idx]; any other length mismatch is a
    [ValueError]. *)
Definition scatter (a : list num) (idx : list nat) (vals : list num) : list num :=
  foldl (fun acc iv => <[iv.1 := iv.2]> acc) a (zip idx vals).

Definition setitem (a : list num) (idx : list nat) (vals : list num) : result (list num) :=
  if negb (forallb (fun i => i <? length a) idx) then Raise IndexError
  else if length vals =? length idx then Ok (scatter a idx vals)
  else match vals with
       | [v] => Ok (scatter a idx (replicate (length idx) v))
       | _ => Raise ValueError
       end.

(** [a[i] = v] for an integer [i]. *)
Definition setitem1 (a : list num) (i : nat) (v : num) : result (list num) :=
  if i <? length a then Ok (<[i := v]> a) else Raise IndexError.

(** [a += b] on one-dimensional arrays: [b] must have the length of [a]
    or length one. *)
Definition iadd (a b : list num) : result (list num) :=
  if length b =? length a then Ok (zip_with nadd a b)
  else match b with
       | [v] => Ok (map (fun t => nadd t v) a)
       | _ => Raise ValueError
       end.

(** [a /= k] for a Python integer [k]; division by zero is not an
    exception for numpy arrays. *)
Definition idiv (a : list num) (k : nat) : list num :=
  map (fun t => ndiv t (nof_nat k)) a.

(** [s + v] and [v * w] as used by the builtin [sum] over rows scaled by
    scalars: adding the integer [0] or a row to a row, and scaling a row. *)
Definition scale (r : list num) (w : num) : list num := map (fun p => nmul p w) r.

Definition py_add (s : pyval) (r : list num) : result pyval :=
  match s with
  | NdScalar z => Ok (Nd1 (map (nadd z) r))
  | Nd1 a =>
      if length a =? length r then Ok (Nd1 (zip_with nadd a r))
      else match a, r with
           | [v], _ => Ok (Nd1 (map (nadd v) r))
           | _, [v] => Ok (Nd1 (map (fun t => nadd t v) a))
           | _, _ => Raise ValueError
           end
  | _ => Raise TypeError
  end.

(** [sum(gen)]: starts from the integer [0] and adds the items from the
    left. *)
Definition py_sum (items : list (list num)) : result pyval :=
  foldl (fun acc r => s ← acc; py_add s r) (Ok (NdScalar nzero)) items.
End Numpy.
Arguments pyval : clear implicits.
Arguments array_like : clear implicits.

(** ** The parts of scikit-learn the module uses *)

Section Sklearn.
Context {num : Type} `{Num num}.

(** Random number generators. [RandomState seed] is a generator freshly
    seeded with [seed]; [rng_shuffle g n] shuffles [arange(n)] with
    generator [g] and returns the shuffled indices and the advanced
    generator. *)
Context {rng : Type}.
Variable RandomState : nat -> rng.
Variable rng_shuffle : rng -> nat -> list nat * rng.

(** The shuffled indices a generator freshly seeded with [seed] gives. *)
Definition seeded_perm (seed n : nat) : list nat := (rng_shuffle (RandomState seed) n).1.

(** [check_random_state(random_state)] followed by one shuffle of
    [arange(n)]. With [None] the process-wide generator [g] is used and
    advanced; with an integer a fresh generator is seeded and [g] is left
    as it is. *)
Definition shuffled_indices (random_state : option nat) (n : nat) (g : rng)
  : list nat * rng :=
  match random_state with
  | None => rng_shuffle g n
  | Some seed => (seeded_perm seed n, g)
  end.

(** [sklearn.utils.shuffle(x, y, random_state=...)]: both arrays are
    reordered by the same shuffled indices; arrays of different lengths
    are rejected. *)
Definition shuffle {A B} (x : list A) (y : list B) (random_state : option nat)
    (g : rng) : result (list A * list B * rng) :=
  if negb (length x =? length y) then Raise ValueError
  else
    let '(p, g') := shuffled_indices random_state (length x) g in
    x' ← take x p;
    y' ← take y p;
    Ok (x', y', g').

(** [KFold(n_splits, shuffle=False, random_state=...)]. The first
    [n mod n_splits] folds have one more row than the others. *)
Definition fold_sizes (n_splits n_samples : nat) : list nat :=
  map (fun i => n_samples / n_splits + (if i <? n_samples mod n_splits then 1 else 0))
      (seq 0 n_splits).

Fixpoint fold_slices (indices : list nat) (sizes : list nat) : list (list nat) :=
  match sizes with
  | [] => []
  | s :: sizes' => firstn s indices :: fold_slices (skipn s indices) sizes'
  end.

Definition mem (i : nat) (l : list nat) : bool := existsb (Nat.eqb i) l.

(** The (train, test) pairs for the folds cut from [indices]: the test
    rows of a fold are those of its slice, the training rows all others. *)
Definition splits_of (indices : list nat) (n_splits n_samples : nat)
  : list (list nat * list nat) :=
  let all := seq 0 n_samples in
  map (fun test => (filter (fun i => negb (mem i test)) all,
                    filter (fun i => mem i test) all))
      (fold_slices indices (fold_sizes n_splits n_samples)).

(** [KFold.split(x)]: the (train, test) index pairs, each in increasing
    order. The generator is consulted only when the splitter was built
    with [shuffle=True]; without it [random_state] plays no part, as in the
    scikit-learn releases the module was written for (from 0.24 on the
    constructor rejects a [random_state] given without [shuffle=True]).
    Fewer than two folds, or more folds than rows, is a [ValueError]. *)
Definition KFold_split (n_splits : nat) (shuffle_ : bool) (random_state : option nat)
    (n_samples : nat) (g : rng) : result (list (list nat * list nat) * rng) :=
  if n_splits <=? 1 then Raise ValueError
  else if n_samples <? n_splits then Raise ValueError
  else
    let '(indices, g') :=
      if shuffle_ then shuffled_indices random_state n_samples g
      else (seq 0 n_samples, g) in
    Ok (splits_of indices n_splits n_samples, g').
End Sklearn.

(** ** ds_utils/evaluate.py *)

Record OptimizeResult {num : Type} := {
  opt_x : list num;
  opt_success : bool
}.
Arguments OptimizeResult : clear implicits.

Section Evaluate.
Context {num : Type} `{Num num} {rng : Type}.

(** The random generators of numpy (see [shuffled_indices]). *)
Variable RandomState : nat -> rng.
Variable rng_shuffle : rng -> nat -> list nat * rng.

(** The model capability interface. A model is an object in the store;
    [fit] is its method [model.fit(x, y)], which updates the store, and
    [predict] its method [model.predict(x)], which reads it. Both are
    functions of their arguments and the store alone. *)
Variable fit : addr -> list (list num) -> list num -> heap num -> heap num.
Variable predict : addr -> list (list num) -> heap num -> list num.

(** [scipy.optimize.minimize(fun, x0, bounds=..., constraints=...)]: the
    solver reports failure to converge in the [success] field of its
    result and raises nothing for it; an exception of the objective
    passes through. *)
Variable minimize :
  (list num -> result num) -> list num -> list (num * num) -> (list num -> num) ->
  result (OptimizeResult num).

(** The local variables of the two cross-validation loops, the store and
    the process-wide random generator. [cv_splits] is a ghost field: the
    (train, test) pairs enumerated so far, which no statement reads. *)
Record cv_state := {
  cv_x : list (list num);
  cv_y : list num;
  cv_y_pred : list num;
  cv_score : list num;
  cv_models : list addr;
  cv_heap : heap num;
  cv_rng : rng;
  cv_splits : list (list nat * list nat)
}.

(** The state with the process-wide generator replaced. *)
Definition set_rng (g : rng) (st : cv_state) : cv_state :=
  {| cv_x := cv_x st; cv_y := cv_y st; cv_y_pred := cv_y_pred st;
     cv_score := cv_score st; cv_models := cv_models st; cv_heap := cv_heap st;
     cv_rng := g; cv_splits := cv_splits st |}.

(** A [for] loop whose body can raise. *)
Fixpoint for_each {S A} (body : S -> A -> result S) (s : S) (items : list A) : result S :=
  match items with
  | [] => Ok s
  | a :: items' => s' ← body s a; for_each body s' items'
  end.

(** The body of the inner loop (lines 123-126 and 175-179). The two loops
    of the source differ in the single statement of line 178, which
    [collect] selects. *)
Definition cv_fold (collect : bool) (model : addr) (st : cv_state)
    (split : list nat * list nat) : result cv_state :=
  let '(train_ind, test_ind) := split in
  x_train ← take (cv_x st) train_ind;
  y_train ← take (cv_y st) train_ind;
  x_test ← take (cv_x st) test_ind;
  y_test ← take (cv_y st) test_ind;
  let h1 := fit model x_train y_train (cv_heap st) in
  let '(h2, models) :=
    if collect
    then let '(h', c) := copy_copy model h1 in (h', cv_models st ++ [c])
    else (h1, cv_models st) in
  y_pred ← setitem (cv_y_pred st) test_ind (predict model x_test h2);
  Ok {| cv_x := cv_x st; cv_y := cv_y st; cv_y_pred := y_pred;
        cv_score := cv_score st; cv_models := models; cv_heap := h2;
        cv_rng := cv_rng st; cv_splits := cv_splits st ++ [split] |}.

(** The body of the outer loop (lines 118-127 and 170-180). *)
Definition cv_repeat (collect : bool) (model : addr)
    (metric : pyval num -> pyval num -> num) (folds : nat)
    (st : cv_state) (r : nat) : result cv_state :=
  '(x, y, g) ← shuffle RandomState rng_shuffle (cv_x st) (cv_y st) (Some r) (cv_rng st);
  '(splits, g') ← KFold_split RandomState rng_shuffle folds false (Some (r + 10)) (length x) g;
  st' ← for_each (cv_fold collect model)
          {| cv_x := x; cv_y := y; cv_y_pred := cv_y_pred st;
             cv_score := cv_score st; cv_models := cv_models st;
             cv_heap := cv_heap st; cv_rng := g'; cv_splits := cv_splits st |}
          splits;
  score ← setitem1 (cv_score st') r (metric (Nd1 (cv_y_pred st')) (Nd1 (cv_y st')));
  Ok {| cv_x := cv_x st'; cv_y := cv_y st'; cv_y_pred := cv_y_pred st';
        cv_score := score; cv_models := cv_models st'; cv_heap := cv_heap st';
        cv_rng := cv_rng st'; cv_splits := cv_splits st' |}.

(** The state before the outer loop (lines 112-113 and 163-165). *)
Definition cv_init (x : list (list num)) (y : list num) (repeats : nat)
    (h : heap num) (g : rng) : cv_state :=
  {| cv_x := x; cv_y := y; cv_y_pred := np_zeros (length y);
     cv_score := np_zeros repeats; cv_models := []; cv_heap := h;
     cv_rng := g; cv_splits := [] |}.

Definition cv_loop (collect : bool) (model : addr) (x : list (list num)) (y : list num)
    (metric : pyval num -> pyval num -> num) (folds repeats : nat)
    (h : heap num) (g : rng) : result cv_state :=
  for_each (cv_repeat collect model metric folds) (cv_init x y repeats h g)
           (seq 0 repeats).

(** The state after the first [k] passes of the outer loop; [cv_loop] is
    [cv_after] at [k = repeats]. *)
Definition cv_after (k : nat) (collect : bool) (model : addr) (x : list (list num))
    (y : list num) (metric : pyval num -> pyval num -> num) (folds repeats : nat)
    (h : heap num) (g : rng) : result cv_state :=
  for_each (cv_repeat collect model metric folds) (cv_init x y repeats h g) (seq 0 k).

(** The store in which the inner loop calls [predict]: after the fit on
    the training rows and, when collecting, after the copy. *)
Definition after_fit (collect : bool) (model : addr) (x_train : list (list num))
    (y_train : list num) (h : heap num) : heap num :=
  let h1 := fit model x_train y_train h in
  if collect then (copy_copy model h1).1 else h1.

(** [cross_validate] (lines 98-133): the value returned and the state the
    call leaves behind. *)
Definition cross_validate (model : addr) (x : list (list num)) (y : list num)
    (metric : pyval num -> pyval num -> num) (folds repeats : nat)
    (h : heap num) (g : rng) : result (pyval num * cv_state) :=
  st ← cv_loop false model x y metric folds repeats h g;
  let mean := NdScalar (np_mean (cv_score st)) in
  n ← py_len mean;
  v ← (if 1 <? n then py_first mean else Ok mean);
  Ok (v, st).

(** [EnsembleRegressor.predict] (lines 141-146). *)
Definition EnsembleRegressor_predict (models : list addr) (x : list (list num))
    (h : heap num) : result (list num) :=
  total ← for_each (fun total model => iadd total (predict model x h))
            (np_zeros (length x)) models;
  Ok (idiv total (length models)).

(** [get_cross_validation_models] (lines 149-186). *)
Definition get_cross_validation_models (model : addr) (x : list (list num))
    (y : list num) (metric : pyval num -> pyval num -> num) (folds repeats : nat)
    (h : heap num) (g : rng) : result (pyval num * cv_state) :=
  st ← cv_loop true model x y metric folds repeats h g;
  Ok (PyEnsemble (cv_models st), st).

(** [evaluate_ensemble_weights] (lines 282-295). *)
Definition evaluate_ensemble_weights (weights : list num) (model_preds : list (list num))
    (y_test : pyval num) (metric : pyval num -> pyval num -> num) (maximize : bool)
    : result num :=
  y_pred ← py_sum (zip_with scale model_preds weights);
  Ok (if maximize then nmul (nopp nunit) (metric y_test y_pred)
      else metric y_test y_pred).

(** [optimize_ensemble], lines 311-318, once [len(model_preds)] has been
    evaluated to [n]. *)
Definition optimize_ensemble_solve (model_preds : pyval num) (n : nat)
    (y_test : pyval num) (metric : pyval num -> pyval num -> num)
    (metric_max_better : bool) : result (pyval num) :=
  let x0 := np_ones n in
  let bounds := replicate (length x0) (nzero, nunit) in
  let cons := fun x : list num => nadd (foldl nadd nzero x) (nopp nunit) in
  optimized ←
    minimize (fun w => rows ← py_rows model_preds;
                       evaluate_ensemble_weights w rows y_test metric metric_max_better)
             x0 bounds cons;
  Ok (Nd1 (opt_x optimized)).

(** [optimize_ensemble] (lines 298-318). Line 310 hands [np.array] a
    generator expression. *)
Definition optimize_ensemble (models : list addr) (x_test : list (list num))
    (y_test : pyval num) (metric : pyval num -> pyval num -> num)
    (metric_max_better : bool) (h : heap num) : result (pyval num) :=
  let model_preds :=
    np_array (OfGenerator (fun _ => map (fun model => predict model x_test h) models)) in
  n ← py_len model_preds;
  optimize_ensemble_solve model_preds n y_test metric metric_max_better.
End Evaluate.

(** ** Concrete collaborators

    Small models, a metric and a generator on which the functions above can
    be run. *)

Module Toy.
(** A generator whose state is a counter; shuffling [arange(n)] rotates it
    by one more than the counter. *)
Definition RandomState (seed : nat) : nat := seed.
Definition rng_shuffle (g n : nat) : list nat * nat := (rotate (S g) (seq 0 n), S g).

Section Models.
Context {num : Type} `{Num num}.

Definition attr (o : gmap string (value num)) (name : string) : option (value num) :=
  o !! name.

(** Three classes of model, told apart by their attributes.
    - A constant predictor has an attribute [c] and predicts it for
      every row; fitting it does nothing.
    - A pipeline has an attribute [final] that refers to another model;
      fitting and predicting are delegated to that object.
    - Any other object is a mean regressor: [fit] binds its attribute
      [mean_] to the mean of the training targets, [predict] returns
      that value for every row (0 before the first fit). *)
Definition fit (self : addr) (x : list (list num)) (y : list num)
    (h : heap num) : heap num :=
  match h !! self with
  | None => h
  | Some o =>
      match attr o "c", attr o "final" with
      | Some _, _ => h
      | None, Some (VRef inner) =>
          alter (fun oi => <["mean_" := VNum (np_mean y)]> oi) inner h
      | None, _ => <[self := <["mean_" := VNum (np_mean y)]> o]> h
      end
  end.

Definition fitted_mean (o : gmap string (value num)) : num :=
  match attr o "mean_" with
  | Some (VNum v) => v
  | _ => nzero
  end.

(** The value a model predicts for every row. *)
Definition predicted_value (self : addr) (h : heap num) : num :=
  match h !! self with
  | None => nzero
  | Some o =>
      match attr o "c", attr o "final" with
      | Some (VNum c), _ => c
      | Some _, _ => nzero
      | None, Some (VRef inner) => fitted_mean (default ∅ (h !! inner))
      | None, _ => fitted_mean o
      end
  end.

Definition predict (self : addr) (x : list (list num)) (h : heap num) : list num :=
  replicate (length x) (predicted_value self h).

Definition constant_model (c : num) : gmap string (value num) := {["c" := VNum c]}.
Definition mean_model : gmap string (value num) := ∅.
Definition pipeline (inner : addr) : gmap string (value num) := {["final" := VRef inner]}.

(** A solver that gives up at once: it returns its starting point and
    reports that it did not converge. *)
Definition minimize_gives_up (f : list num -> result num) (x0 : list num)
    (bounds : list (num * num)) (cons : list num -> num)
    : result (OptimizeResult num) :=
  Ok {| opt_x := x0; opt_success := false |}.
End Models.

(** Mean squared error between two arrays of one length; a scalar stands
    for an array of one entry. *)
Definition mean_squared_error {num} `{Num num} (a b : pyval num) : num :=
  let sq := fun u v : num => nmul (nadd u (nopp v)) (nadd u (nopp v)) in
  match a, b with
  | Nd1 l, Nd1 l' => np_mean (zip_with sq l l')
  | Nd1 l, NdScalar v => np_mean (map (fun u => sq u v) l)
  | NdScalar u, Nd1 l' => np_mean (map (sq u) l')
  | NdScalar u, NdScalar v => sq u v
  | _, _ => nzero
  end.
End Toy.

(** ** Reference definitions

    What the specification says the functions compute, written coordinate
    by coordinate, to be compared with the array code above. *)

Section Reference.
Context {num : Type} `{Num num}.

(** Column [j] of a list of rows. *)
Definition column (j : nat) (rows : list (list num)) : list num :=
  omap (fun r => r !! j) rows.

(** The elementwise arithmetic mean of [preds], a list of arrays of
    length [n]: entry [j] is the sum of the [j]-th entries divided by the
    number of arrays. *)
Definition elementwise_mean (preds : list (list num)) (n : nat) : list num :=
  map (fun j => ndiv (np_sum (column j preds)) (nof_nat (length preds))) (seq 0 n).

(** The weighted sum [sum_i w_i * P_i] of the rows of [P], of length [n]:
    entry [j] is [sum_i w_i * P_i[j]]. The sum of no rows is [0]. *)
Definition weighted_sum (w : list num) (P : list (list num)) (n : nat) : pyval num :=
  match P with
  | [] => NdScalar nzero
  | _ :: _ =>
      Nd1 (map (fun j => np_sum (zip_with (fun wi Pi => nmul wi (default nzero (Pi !! j))) w P))
               (seq 0 n))
  end.

(** The contract of the random generator: shuffling [arange(n)] gives a
    permutation of it. *)
Definition valid_shuffle {rng} (RandomState : nat -> rng)
    (rng_shuffle : rng -> nat -> list nat * rng) : Prop :=
  forall seed n, seeded_perm RandomState rng_shuffle seed n ≡ₚ seq 0 n.

(** The contract of [predict]: one prediction per row. *)
Definition predicts_each_row (predict : addr -> list (list num) -> heap num -> list num)
  : Prop :=
  forall m x h, length (predict m x h) = length x.

(** The composition of the shuffles with seeds [0] to [r]: entry [i] is
    the index, in the caller's arrays, of the row that sits at position
    [i] during repeat [r]. *)
Fixpoint cum_order {rng} (RandomState : nat -> rng)
    (rng_shuffle : rng -> nat -> list nat * rng) (r n : nat) : list nat :=
  match r with
  | 0 => seeded_perm RandomState rng_shuffle 0 n
  | S r' => gather (cum_order RandomState rng_shuffle r' n)
                   (seeded_perm RandomState rng_shuffle (S r') n)
  end.

(** The three arrays of the loop state have [n] rows. *)
Definition cv_sized {rng} (n : nat) (st : @cv_state num rng) : Prop :=
  length (cv_x st) = n /\ length (cv_y st) = n /\ length (cv_y_pred st) = n.

(** The prediction buffer [y_pred] is aligned to the rows [xr], [yr]:
    entry [i] is the prediction made for row [i] of [xr], as the [k]-th
    test row of a fold, by the model fitted on the training rows of that
    fold taken from [xr] and [yr]. *)
Definition aligned
    (fit : addr -> list (list num) -> list num -> heap num -> heap num)
    (predict : addr -> list (list num) -> heap num -> list num)
    (collect : bool) (model : addr) (folds : nat)
    (xr : list (list num)) (yr y_pred : list num) : Prop :=
  forall i, i < length xr ->
    exists train test k h0,
      (train, test) ∈ splits_of (seq 0 (length xr)) folds (length xr)
      /\ test !! k = Some i
      /\ y_pred !! i
         = predict model (gather xr test)
             (after_fit fit collect model (gather xr train) (gather yr train) h0) !! k.

(** A solver result with its [success] field replaced. *)
Definition with_success (b : bool) (r : OptimizeResult num) : OptimizeResult num :=
  {| opt_x := opt_x r; opt_success := b |}.
End Reference.

(** ** Callers of cross_validate *)

Section Callers.
Context {num : Type} `{Num num} {rng : Type}.
Variable RandomState : nat -> rng.
Variable rng_shuffle : rng -> nat -> list nat * rng.
Variable fit : addr -> list (list num) -> list num -> heap num -> heap num.
Variable predict : addr -> list (list num) -> heap num -> list num.

(** [np.argmax] ([true]) or [np.argmin] ([false]) of a one-dimensional
    array: the index of the first best entry, as a numpy integer scalar; a
    [ValueError] on an empty array. *)
Variable np_argbest : bool -> list num -> result nat.

(** [first = lambda s: s[0] if len(s) > 1 else s] (lines 229 and 276). *)
Definition first (s : pyval num) : result (pyval num) :=
  n ← py_len s;
  if 1 <? n then py_first s else Ok s.

(** [scores[i] = v] for a float array [scores]: a scalar or an array of
    one entry is stored; a longer array is a [ValueError], a value that is
    no number a [TypeError]. *)
Definition setitem_value (a : list num) (i : nat) (v : pyval num) : result (list num) :=
  match v with
  | NdScalar t => setitem1 a i t
  | Nd1 [t] => setitem1 a i t
  | Nd1 _ | Nd2 _ => Raise ValueError
  | NdObject0 | PyEnsemble _ | PyPair _ _ => Raise TypeError
  end.

(** The scoring loop of lines 221-225 and 268-272. [regressors] are the
    eleven models built on lines 199-220; each call of [cross_validate]
    uses the defaults [folds=5], [repeats=3] and leaves its effects on the
    store. *)
Definition score_regressors (regressors : list addr) (x : list (list num)) (y : list num)
    (metric : pyval num -> pyval num -> num) (h : heap num) (g : rng)
    : result (list num * heap num * rng) :=
  for_each (fun (acc : list num * heap num * rng) (ir : nat * addr) =>
              '(v, st) ← cross_validate RandomState rng_shuffle fit predict
                           ir.2 x y metric 5 3 acc.1.2 acc.2;
              scores ← setitem_value acc.1.1 ir.1 v;
              Ok (scores, cv_heap st, cv_rng st))
           (np_zeros (length regressors), h, g)
           (zip (seq 0 (length regressors)) regressors).

(** Lines 227-232 and 274-279: the index of the best score goes through
    [first] and selects the model whose class name is printed. The index,
    a numpy integer scalar, is written as a scalar of the number type. *)
Definition report_best (regressors : list addr) (scores : list num)
    (metric_max_better : bool) : result unit :=
  idx ← np_argbest metric_max_better scores;
  s ← first (NdScalar (nof_nat idx));
  match s, regressors !! idx with
  | NdScalar _, Some _ => Ok ()
  | NdScalar _, None => Raise IndexError
  | _, _ => Raise TypeError
  end.

(** [try_many_regressors] (lines 189-232). *)
Definition try_many_regressors (regressors : list addr) (x : list (list num))
    (y : list num) (metric : pyval num -> pyval num -> num) (metric_max_better : bool)
    (h : heap num) (g : rng) : result unit :=
  '(scores, _, _) ← score_regressors regressors x y metric h g;
  report_best regressors scores metric_max_better.

(** [get_ensembles_many_regressors] (lines 236-279): the same statements
    as [try_many_regressors]; it calls [cross_validate] as well. *)
Definition get_ensembles_many_regressors (regressors : list addr) (x : list (list num))
    (y : list num) (metric : pyval num -> pyval num -> num) (metric_max_better : bool)
    (h : heap num) (g : rng) : result unit :=
  '(scores, _, _) ← score_regressors regressors x y metric h g;
  report_best regressors scores metric_max_better.
End Callers.

(** ** Further contracts and reference definitions *)

Module Flat.
Section Models.
Context {num : Type} `{Num num}.

(** The number attributes of an object. *)
Definition numbers (o : gmap string (value num)) : gmap string num :=
  omap (fun v => match v with VNum t => Some t | _ => None end) o.

(** A model that keeps its fitted state in number attributes of the model
    object itself, as in [self.mean_ = np.mean(y)]. [fit] computes new
    numbers from the training rows and the numbers the object holds
    ([learn]) and binds them on the model object; it writes nothing else,
    neither another object nor an array in place. [predict] computes from
    the numbers the object holds and the rows ([estimate]). A Python
    number is immutable, so an attribute that holds one changes only by
    being rebound. *)
Variable learn : list (list num) -> list num -> gmap string num -> gmap string num.
Variable estimate : gmap string num -> list (list num) -> list num.

Definition fit (self : addr) (x : list (list num)) (y : list num)
    (h : heap num) : heap num :=
  alter (fun o => (VNum <$> learn x y (numbers o)) ∪ o) self h.

Definition predict (self : addr) (x : list (list num)) (h : heap num) : list num :=
  estimate (numbers (default ∅ (h !! self))) x.
End Models.

(** The mean regressor as such a model: [fit] binds [mean_] to the mean of
    the training targets, [predict] returns it for every row (0 before the
    first fit). *)
Definition mean_learn {num : Type} `{Num num} (x : list (list num)) (y : list num)
    (s : gmap string num) : gmap string num :=
  {["mean_" := np_mean y]}.

Definition mean_estimate {num : Type} `{Num num} (s : gmap string num)
    (x : list (list num)) : list num :=
  replicate (length x) (default nzero (s !! "mean_")).
End Flat.

Module Stub.
(** A model that returns the array stored in its attribute [out], whatever
    the rows it is asked about. *)
Definition predict {num : Type} (self : addr) (x : list (list num)) (h : heap num)
    : list num :=
  match default ∅ (h !! self) !! "out" with
  | Some (VVec l) => l
  | _ => []
  end.

Definition model {num : Type} (out : list num) : gmap string (value num) :=
  {["out" := VVec out]}.
End Stub.

Section Contracts.
Context {num : Type} `{Num num}.

(** A model class whose [fit] changes no object but the model itself and
    removes none. *)
Definition fit_keeps_others
    (fit : addr -> list (list num) -> list num -> heap num -> heap num) : Prop :=
  forall m x y h,
    length h <= length (fit m x y h)
    /\ forall a, a <> m -> a < length h -> fit m x y h !! a = h !! a.

(** A model class whose [predict] reads the attributes of the model
    object only. *)
Definition predict_reads_own
    (predict : addr -> list (list num) -> heap num -> list num) : Prop :=
  forall a b x h h', h !! a = h' !! b -> predict a x h = predict b x h'.

(** The state with the prediction buffer replaced. *)
Definition set_y_pred {rng} (b : list num) (st : @cv_state num rng) : @cv_state num rng :=
  {| cv_x := cv_x st; cv_y := cv_y st; cv_y_pred := b;
     cv_score := cv_score st; cv_models := cv_models st; cv_heap := cv_heap st;
     cv_rng := cv_rng st; cv_splits := cv_splits st |}.

(** The prediction buffer [y_pred] is out of fold for the rows [xr], [yr]:
    entry [i] is the prediction made for row [i] by the model fitted on the
    training rows of the fold that tests row [i], and these are exactly the
    rows outside that fold. *)
Definition out_of_fold
    (fit : addr -> list (list num) -> list num -> heap num -> heap num)
    (predict : addr -> list (list num) -> heap num -> list num)
    (collect : bool) (model : addr) (folds : nat)
    (xr : list (list num)) (yr y_pred : list num) : Prop :=
  forall i, i < length xr ->
    exists train test k h0,
      (train, test) ∈ splits_of (seq 0 (length xr)) folds (length xr)
      /\ test !! k = Some i
      /\ (i ∉ train)
      /\ (forall j, j < length xr -> (j ∈ train <-> j ∉ test))
      /\ y_pred !! i
         = predict model (gather xr test)
             (after_fit fit collect model (gather xr train) (gather yr train) h0) !! k.

(** A model class whose [fit] removes no object from the store. *)
Definition fit_keeps_store
    (fit : addr -> list (list num) -> list num -> heap num -> heap num) : Prop :=
  forall m x y h, length h <= length (fit m x y h).

(** The object at [c] in the store [h] is a snapshot of the model: its
    attributes are those the live model had right after it was fitted on
    the training rows of a fold of one of the [repeats] passes, taken in
    the row order of that pass, and it predicts as the live model did
    then. *)
Definition snapshot_of {rng} (RandomState : nat -> rng)
    (rng_shuffle : rng -> nat -> list nat * rng)
    (fit : addr -> list (list num) -> list num -> heap num -> heap num)
    (predict : addr -> list (list num) -> heap num -> list num)
    (model : addr) (x : list (list num)) (y : list num) (folds repeats : nat)
    (h : heap num) (c : addr) : Prop :=
  exists r train test h0,
    r < repeats
    /\ (train, test) ∈ splits_of (seq 0 (length x)) folds (length x)
    /\ model < length h0
    /\ h !! c
       = (fit model
            (gather (gather x (cum_order RandomState rng_shuffle r (length x))) train)
            (gather (gather y (cum_order RandomState rng_shuffle r (length x))) train)
            h0) !! model
    /\ forall x',
         predict c x' h
         = predict model x'
             (fit model
                (gather (gather x (cum_order RandomState rng_shuffle r (length x))) train)
                (gather (gather y (cum_order RandomState rng_shuffle r (length x))) train)
                h0).
End Contracts.

(** * Properties *)

(** ** The result monad *)

Lemma bind_Ok {A B} (a : A) (k : A -> result B) : (x ← Ok a; k x) = k a.
Proof. reflexivity. Qed.

Lemma bind_Raise {A B} (e : exn) (k : A -> result B) : (x ← Raise e; k x) = Raise e.
Proof. reflexivity. Qed.

Lemma returns_Ok {A} (a : A) : returns (Ok a).
Proof. by exists a. Qed.

Lemma raises_not_returns {A} (r : result A) : raises r -> ~ returns r.
Proof. intros [e ->] [a Ha]. discriminate. Qed.

Lemma returns_not_raises {A} (r : result A) : returns r -> ~ raises r.
Proof. intros [a ->] [e He]. discriminate. Qed.

(** ** cross_validate: the value returned *)

Section CrossValidateReturn.
Context {num : Type} `{Num num} {rng : Type}.
Variable RandomState : nat -> rng.
Variable rng_shuffle : rng -> nat -> list nat * rng.
Variable fit : addr -> list (list num) -> list num -> heap num -> heap num.
Variable predict : addr -> list (list num) -> heap num -> list num.

(** Line 133 asks for [len(mean)], and [mean] is a scalar. *)
Lemma cross_validate_len_mean model x y metric folds repeats h g :
  cross_validate RandomState rng_shuffle fit predict model x y metric folds repeats h g
  = (st ← cv_loop RandomState rng_shuffle fit predict false model x y metric folds repeats h g;
     Raise TypeError).
Proof.
  unfold cross_validate.
  destruct (cv_loop _ _ _ _ _ _ _ _ _ _ _ _ _) as [st|e]; reflexivity.
Qed.
End CrossValidateReturn.

(** C1 (defect). [cross_validate] never returns a value: whenever both loops
    run to the end, line 133 raises [TypeError] instead of returning the
    mean of the per-repeat scores. On two rows, two folds and one repeat the
    loop ends with the score array [[100.]], whose mean is [100.], and the
    call raises. *)
Theorem cross_validate_raises_TypeError :
  (forall (num : Type) (N : Num num) (rng : Type) (RandomState : nat -> rng)
          (rng_shuffle : rng -> nat -> list nat * rng)
          (fit : addr -> list (list num) -> list num -> heap num -> heap num)
          (predict : addr -> list (list num) -> heap num -> list num)
          model x y metric folds repeats h g,
      raises (cross_validate RandomState rng_shuffle fit predict
                model x y metric folds repeats h g))
  /\ (cv_score <$> cv_loop Toy.RandomState Toy.rng_shuffle Toy.fit Toy.predict false
        0 [[1%float]; [2%float]] [10%float; 20%float] Toy.mean_squared_error 2 1
        [Toy.mean_model] 0) = Ok [100%float]
  /\ np_mean [100%float] = 100%float
  /\ cross_validate Toy.RandomState Toy.rng_shuffle Toy.fit Toy.predict
        0 [[1%float]; [2%float]] [10%float; 20%float] Toy.mean_squared_error 2 1
        [Toy.mean_model] 0 = Raise TypeError.
Proof.
  split; [|split; [|split]].
  - intros. rewrite cross_validate_len_mean.
    destruct (cv_loop _ _ _ _ _ _ _ _ _ _ _ _ _) as [st|e]; eexists; reflexivity.
  - vm_compute. reflexivity.
  - vm_compute. reflexivity.
  - vm_compute. reflexivity.
Qed.

(** ** EnsembleRegressor.predict *)

Section Predict.
Context {num : Type} `{Num num}.
Variable predict : addr -> list (list num) -> heap num -> list num.

Lemma length_np_zeros n : length (np_zeros (num:=num) n) = n.
Proof. apply length_replicate. Qed.

(** Adding arrays of the length of the accumulator never raises; the loop
    of lines 143-144 is a left fold of elementwise additions. *)
Lemma for_each_iadd (f : addr -> list num) models (acc : list num) :
  Forall (fun m => length (f m) = length acc) models ->
  for_each (fun total m => iadd total (f m)) acc models
  = Ok (foldl (zip_with nadd) acc (map f models)).
Proof.
  revert acc. induction models as [|m models IH]; intros acc Hlen; [done|].
  apply Forall_cons in Hlen as [Hm Hrest]. cbn [for_each map foldl].
  unfold iadd. rewrite Hm, Nat.eqb_refl. cbn.
  apply IH. eapply Forall_impl; [exact Hrest|].
  intros m' Hm'. cbn in Hm'. rewrite Hm'.
  rewrite length_zip_with. lia.
Qed.

Lemma column_cons j (r : list num) rows b :
  r !! j = Some b -> column j (r :: rows) = b :: column j rows.
Proof. intros Hb. unfold column. cbn. by rewrite Hb. Qed.

(** Entry [j] of a left fold of elementwise additions is the left fold of
    the additions of the [j]-th entries. *)
Lemma foldl_zip_with_lookup (rows : list (list num)) (acc : list num) j a :
  acc !! j = Some a ->
  Forall (fun r => length r = length acc) rows ->
  foldl (zip_with nadd) acc rows !! j = Some (foldl nadd a (column j rows)).
Proof.
  revert acc a. induction rows as [|r rows IH]; intros acc a Hj Hlen; [done|].
  apply Forall_cons in Hlen as [Hr Hrest].
  assert (Hlt : j < length r) by (rewrite Hr; by eapply lookup_lt_Some).
  destruct (lookup_lt_is_Some_2 _ _ Hlt) as [b Hb].
  rewrite (column_cons j r rows b Hb). cbn [foldl].
  apply IH.
  - rewrite lookup_zip_with, Hj, Hb. reflexivity.
  - eapply Forall_impl; [exact Hrest|]. intros r' Hr'. cbn in Hr'.
    rewrite length_zip_with. lia.
Qed.

Lemma length_foldl_zip_with (rows : list (list num)) (acc : list num) :
  Forall (fun r => length r = length acc) rows ->
  length (foldl (zip_with nadd) acc rows) = length acc.
Proof.
  revert acc. induction rows as [|r rows IH]; intros acc Hlen; [done|].
  apply Forall_cons in Hlen as [Hr Hrest]. cbn [foldl].
  rewrite IH; [rewrite length_zip_with; lia|].
  eapply Forall_impl; [exact Hrest|]. intros r' Hr'. cbn in Hr'.
  rewrite length_zip_with. lia.
Qed.

Lemma EnsembleRegressor_predict_mean models x h :
  Forall (fun m => length (predict m x h) = length x) models ->
  EnsembleRegressor_predict predict models x h
  = Ok (elementwise_mean (map (fun m => predict m x h) models) (length x)).
Proof.
  intros Hlen. unfold EnsembleRegressor_predict.
  rewrite (for_each_iadd (fun m => predict m x h));
    [|by rewrite length_np_zeros].
  cbn. f_equal. unfold idiv, elementwise_mean.
  set (preds := map (fun m => predict m x h) models).
  assert (Hrows : Forall (fun r => length r = length (np_zeros (num:=num) (length x))) preds).
  { unfold preds. rewrite Forall_map, length_np_zeros. exact Hlen. }
  apply list_eq. intros j. rewrite !list_lookup_fmap.
  destruct (decide (j < length x)) as [Hj|Hj].
  - rewrite lookup_seq_lt by done. cbn.
    erewrite foldl_zip_with_lookup; [|by apply lookup_replicate_2|exact Hrows].
    unfold preds. rewrite length_map. reflexivity.
  - rewrite lookup_seq_ge by lia.
    rewrite (lookup_ge_None_2 (foldl _ _ _)); [done|].
    rewrite length_foldl_zip_with by done. rewrite length_np_zeros. lia.
Qed.

(** With no models the loop body never runs and line 145 divides the
    zeros by the integer 0. *)
Lemma EnsembleRegressor_predict_nil x h :
  EnsembleRegressor_predict predict [] x h
  = Ok (replicate (length x) (ndiv nzero (nof_nat 0))).
Proof.
  unfold EnsembleRegressor_predict, idiv, np_zeros. cbn.
  f_equal. induction (length x) as [|n IH]; [done|]. cbn. by rewrite IH.
Qed.
End Predict.

(** C7. For a non-empty ensemble whose models each predict one value per
    row of [x], [predict] returns the elementwise arithmetic mean of the
    models' predictions; three constant predictors returning 1.0, 2.0 and
    3.0 on one row give 2.0. *)
Theorem EnsembleRegressor_predict_is_mean :
  (forall (num : Type) (N : Num num)
          (predict : addr -> list (list num) -> heap num -> list num)
          (models : list addr) (x : list (list num)) (h : heap num),
      models <> [] ->
      Forall (fun m => length (predict m x h) = length x) models ->
      EnsembleRegressor_predict predict models x h
      = Ok (elementwise_mean (map (fun m => predict m x h) models) (length x)))
  /\ EnsembleRegressor_predict Toy.predict [0; 1; 2] [[5%float]]
       [Toy.constant_model 1%float; Toy.constant_model 2%float;
        Toy.constant_model 3%float] = Ok [2%float].
Proof.
  split.
  - intros num N predict models x h _ Hlen.
    by apply EnsembleRegressor_predict_mean.
  - vm_compute. reflexivity.
Qed.

Lemma EnsembleRegressor_predict_is_mean_witness :
  [0; 1] <> @nil addr
  /\ Forall (fun m => length (Toy.predict (num:=Q) m [[5%Q]; [6%Q]]
                              [Toy.constant_model 1%Q; Toy.constant_model 4%Q]) = 2) [0; 1]
  /\ EnsembleRegressor_predict (num:=Q) Toy.predict [0; 1] [[5%Q]; [6%Q]]
       [Toy.constant_model 1%Q; Toy.constant_model 4%Q]
     = Ok (elementwise_mean
             (map (fun m => Toy.predict m [[5%Q]; [6%Q]]
                              [Toy.constant_model 1%Q; Toy.constant_model 4%Q]) [0; 1]) 2).
Proof.
  assert (Hne : [0; 1] <> @nil addr) by discriminate.
  assert (Hlen : Forall (fun m => length (Toy.predict (num:=Q) m [[5%Q]; [6%Q]]
                    [Toy.constant_model 1%Q; Toy.constant_model 4%Q]) = 2) [0; 1]).
  { repeat constructor. }
  split; [exact Hne|]. split; [exact Hlen|].
  exact (proj1 EnsembleRegressor_predict_is_mean Q Q_num Toy.predict [0; 1]
           [[5%Q]; [6%Q]] [Toy.constant_model 1%Q; Toy.constant_model 4%Q] Hne Hlen).
Defined.

(** C4 (amended). On an ensemble with no members [predict] raises nothing:
    it returns one entry [0/0] per row of [x] (NaN in binary64). *)
Theorem EnsembleRegressor_predict_empty :
  forall (num : Type) (N : Num num)
         (predict : addr -> list (list num) -> heap num -> list num)
         (x : list (list num)) (h : heap num),
    EnsembleRegressor_predict predict [] x h
    = Ok (replicate (length x) (ndiv nzero (nof_nat 0))).
Proof. intros. apply EnsembleRegressor_predict_nil. Qed.

(** C4 as stated fails: on the empty ensemble and one row, [predict]
    returns the array [[nan]]. *)
Lemma EnsembleRegressor_predict_empty_no_error :
  EnsembleRegressor_predict Toy.predict [] [[5%float]] [] = Ok [nan]
  /\ ~ raises (EnsembleRegressor_predict Toy.predict [] [[5%float]] []).
Proof.
  split; [vm_compute; reflexivity|].
  apply returns_not_raises. eexists. vm_compute. reflexivity.
Qed.

(** ** The weight objective *)

#[export] Instance Q_laws : NumLaws Q.
Proof.
  split.
  - intros [a b] [c d]. cbn. unfold Qmult. cbn.
    by rewrite Z.mul_comm, Pos.mul_comm.
  - intros [a b]. cbn. unfold Qmult, Qopp. cbn. by destruct a.
Qed.

Section Objective.
Context {num : Type} `{NumLaws num}.

(** The builtin [sum] over rows of one length: after the first addition to
    the integer 0 the accumulator is an array, and every later addition is
    elementwise. *)
Lemma py_sum_from_array (rows : list (list num)) (acc : list num) :
  Forall (fun r => length r = length acc) rows ->
  foldl (fun a r => s ← a; py_add s r) (Ok (Nd1 acc)) rows
  = Ok (Nd1 (foldl (zip_with nadd) acc rows)).
Proof.
  revert acc. induction rows as [|r rows IH]; intros acc Hlen; [done|].
  apply Forall_cons in Hlen as [Hr Hrest]. cbn [foldl].
  cbn. rewrite <- Hr, Nat.eqb_refl. apply IH.
  eapply Forall_impl; [exact Hrest|]. intros r' Hr'. cbn in Hr'.
  rewrite length_zip_with. lia.
Qed.

Lemma py_sum_rows (r0 : list num) (rows : list (list num)) :
  Forall (fun r => length r = length r0) rows ->
  py_sum (r0 :: rows)
  = Ok (Nd1 (foldl (zip_with nadd) (map (nadd nzero) r0) rows)).
Proof.
  intros Hlen. unfold py_sum. cbn [foldl]. cbn.
  apply py_sum_from_array. by rewrite length_map.
Qed.

(** Column [j] of the scaled rows, read as the products [w_i * P_i[j]]. *)
Lemma column_scaled (P : list (list num)) (w : list num) j n :
  j < n ->
  Forall (fun r => length r = n) P ->
  column j (zip_with scale P w)
  = zip_with (fun wi Pi => nmul wi (default nzero (Pi !! j))) w P.
Proof.
  intros Hj. revert w. induction P as [|r P IH]; intros w HP.
  - by destruct w.
  - destruct w as [|wi w]; [done|].
    apply Forall_cons in HP as [Hr HP]. cbn [zip_with].
    assert (Hlt : j < length r) by lia.
    destruct (lookup_lt_is_Some_2 _ _ Hlt) as [b Hb].
    rewrite (column_cons j (scale r wi) _ (nmul b wi)).
    + rewrite Hb. cbn. rewrite (nmul_comm wi b). f_equal. by apply IH.
    + unfold scale. by rewrite list_lookup_fmap, Hb.
Qed.

Lemma py_sum_weighted (w : list num) (P : list (list num)) n :
  Forall (fun r => length r = n) P ->
  length w = length P ->
  py_sum (zip_with scale P w) = Ok (weighted_sum w P n).
Proof.
  intros HP Hw. destruct P as [|r P]; [by destruct w|].
  destruct w as [|wi w]; [done|].
  apply Forall_cons in HP as [Hr HP]. cbn [zip_with].
  assert (Hrows : Forall (fun r' => length r' = length (scale r wi)) (zip_with scale P w)).
  { unfold scale at 1. rewrite length_map, Hr. clear Hw.
    revert w. induction P as [|r' P IH]; intros w; [constructor|].
    destruct w as [|wj w]; [constructor|].
    apply Forall_cons in HP as [Hr' HP]. cbn [zip_with]. constructor.
    - unfold scale. by rewrite length_map.
    - by apply IH. }
  rewrite py_sum_rows by exact Hrows.
  unfold weighted_sum. do 2 f_equal.
  apply list_eq. intros j. rewrite list_lookup_fmap.
  assert (Hlen0 : length (map (nadd nzero) (scale r wi)) = n).
  { unfold scale. by rewrite !length_map. }
  destruct (decide (j < n)) as [Hj|Hj].
  - rewrite lookup_seq_lt by done. cbn [fmap option_fmap option_map plus].
    assert (Hjr : j < length r) by lia.
    destruct (lookup_lt_is_Some_2 _ _ Hjr) as [b Hb].
    erewrite foldl_zip_with_lookup.
    + f_equal. unfold np_sum. cbn [zip_with foldl]. rewrite Hb. cbn [default].
      rewrite (column_scaled P w j n Hj HP). rewrite (nmul_comm wi b).
      reflexivity.
    + unfold scale. by rewrite !list_lookup_fmap, Hb.
    + rewrite length_map. exact Hrows.
  - rewrite lookup_seq_ge by lia.
    apply lookup_ge_None_2.
    rewrite length_foldl_zip_with; [lia|].
    rewrite length_map. exact Hrows.
Qed.
End Objective.

(** C8. In exact arithmetic, for a weight vector [w] with one weight per row
    of the prediction matrix [P], whose rows all have [n] entries, the
    objective is [m(y, sum_i w_i * P_i)] when [maximize] is false and its
    negation when [maximize] is true. *)
Theorem evaluate_ensemble_weights_objective
    {num : Type} `{NumLaws num} (w : list num) (P : list (list num)) (n : nat)
    (y : pyval num) (m : pyval num -> pyval num -> num) (maximize : bool) :
  Forall (fun r => length r = n) P ->
  length w = length P ->
  evaluate_ensemble_weights w P y m maximize
  = Ok (if maximize then nopp (m y (weighted_sum w P n))
        else m y (weighted_sum w P n)).
Proof.
  intros HP Hw. unfold evaluate_ensemble_weights.
  rewrite (py_sum_weighted w P n HP Hw). cbn.
  destruct maximize; [|reflexivity].
  by rewrite nmul_neg_one.
Qed.

Lemma evaluate_ensemble_weights_objective_witness :
  Forall (fun r : list Q => length r = 2) [[1%Q; 2%Q]; [3%Q; 5%Q]]
  /\ length [(1 # 4)%Q; (3 # 4)%Q] = length [[1%Q; 2%Q]; [3%Q; 5%Q]]
  /\ evaluate_ensemble_weights [(1 # 4)%Q; (3 # 4)%Q] [[1%Q; 2%Q]; [3%Q; 5%Q]]
       (Nd1 [2%Q; 4%Q]) Toy.mean_squared_error true
     = Ok (nopp (Toy.mean_squared_error (Nd1 [2%Q; 4%Q])
                   (weighted_sum [(1 # 4)%Q; (3 # 4)%Q] [[1%Q; 2%Q]; [3%Q; 5%Q]] 2))).
Proof.
  assert (HP : Forall (fun r : list Q => length r = 2) [[1%Q; 2%Q]; [3%Q; 5%Q]])
    by (repeat constructor).
  assert (Hw : length [(1 # 4)%Q; (3 # 4)%Q] = length [[1%Q; 2%Q]; [3%Q; 5%Q]])
    by reflexivity.
  split; [exact HP|]. split; [exact Hw|].
  exact (evaluate_ensemble_weights_objective (num:=Q) [(1 # 4)%Q; (3 # 4)%Q]
           [[1%Q; 2%Q]; [3%Q; 5%Q]] 2 (Nd1 [2%Q; 4%Q]) Toy.mean_squared_error true HP Hw).
Defined.

(** ** optimize_ensemble *)

(** C3 (defect). [optimize_ensemble] returns no weight vector: line 310
    wraps a generator in a 0-dimensional array, so no prediction is ever
    computed (the outcome is the same whatever [predict] is) and
    [len(model_preds)] on line 311 raises [TypeError]. *)
Theorem optimize_ensemble_raises_TypeError
    {num : Type} `{Num num}
    (predict predict' : addr -> list (list num) -> heap num -> list num)
    (minimize : (list num -> result num) -> list num -> list (num * num) ->
                (list num -> num) -> result (OptimizeResult num))
    (models : list addr) (x_test : list (list num)) (y_test : pyval num)
    (metric : pyval num -> pyval num -> num) (metric_max_better : bool) (h : heap num) :
  optimize_ensemble predict minimize models x_test y_test metric metric_max_better h
  = Raise TypeError
  /\ optimize_ensemble predict minimize models x_test y_test metric metric_max_better h
     = optimize_ensemble predict' minimize models x_test y_test metric metric_max_better h.
Proof. split; reflexivity. Qed.



(** Lines 311-318, taken by themselves, hold no check of the solver's
    [success] field: started with a solver that reports another outcome
    they produce the same value. No call of [optimize_ensemble] reaches
    these lines with an array of predictions. *)
Lemma optimize_ensemble_solve_ignores_success
    {num : Type} `{Num num}
    (minimize : (list num -> result num) -> list num -> list (num * num) ->
                (list num -> num) -> result (OptimizeResult num))
    (b : bool) (model_preds : pyval num) (n : nat) (y_test : pyval num)
    (metric : pyval num -> pyval num -> num) (metric_max_better : bool) :
  optimize_ensemble_solve
    (fun f x0 bounds cons => with_success b <$> minimize f x0 bounds cons)
    model_preds n y_test metric metric_max_better
  = optimize_ensemble_solve minimize model_preds n y_test metric metric_max_better.
Proof.
  unfold optimize_ensemble_solve.
  destruct (minimize _ _ _ _) as [res|e]; reflexivity.
Qed.

(** ** Determinism of the cross-validation loops *)

Section Determinism.
Context {num : Type} `{Num num} {rng : Type}.
Variable RandomState : nat -> rng.
Variable rng_shuffle : rng -> nat -> list nat * rng.
Variable fit : addr -> list (list num) -> list num -> heap num -> heap num.
Variable predict : addr -> list (list num) -> heap num -> list num.

Lemma for_each_commute {S A} (phi : S -> S) (body : S -> A -> result S) items :
  (forall s a, body (phi s) a = phi <$> body s a) ->
  forall s, for_each body (phi s) items = phi <$> for_each body s items.
Proof.
  intros Hbody. induction items as [|a items IH]; intros s; [done|].
  cbn [for_each]. rewrite Hbody.
  destruct (body s a) as [s'|e]; [|done]. cbn. apply IH.
Qed.

Lemma cv_fold_set_rng collect model (g : rng) (st : @cv_state num rng) split :
  cv_fold fit predict collect model (set_rng g st) split
  = set_rng g <$> cv_fold fit predict collect model st split.
Proof.
  unfold cv_fold. destruct split as [train_ind test_ind]. cbn [set_rng cv_x cv_y].
  destruct (take (cv_x st) train_ind) as [x_train|e]; [|done].
  destruct (take (cv_y st) train_ind) as [y_train|e]; [|done].
  destruct (take (cv_x st) test_ind) as [x_test|e]; [|done].
  destruct (take (cv_y st) test_ind) as [y_test|e]; [|done].
  cbn. destruct collect; cbn;
    destruct (setitem _ _ _) as [y_pred|e]; reflexivity.
Qed.

(** Both library calls of the outer loop are given a seed, so neither
    reads nor advances the process-wide generator. *)
Lemma shuffle_seeded {A B} (x : list A) (y : list B) r (g : rng) :
  shuffle RandomState rng_shuffle x y (Some r) g
  = if negb (length x =? length y) then Raise ValueError
    else x' ← take x (seeded_perm RandomState rng_shuffle r (length x));
         y' ← take y (seeded_perm RandomState rng_shuffle r (length x));
         Ok (x', y', g).
Proof. reflexivity. Qed.

Lemma KFold_split_unshuffled n_splits random_state n (g : rng) :
  KFold_split RandomState rng_shuffle n_splits false random_state n g
  = if n_splits <=? 1 then Raise ValueError
    else if n <? n_splits then Raise ValueError
    else Ok (splits_of (seq 0 n) n_splits n, g).
Proof. reflexivity. Qed.

(** Both library calls of the outer loop are given a seed, so neither
    reads nor advances the process-wide generator. *)
Lemma cv_repeat_set_rng collect model metric folds (g : rng) (st : @cv_state num rng) r :
  cv_repeat RandomState rng_shuffle fit predict collect model metric folds (set_rng g st) r
  = set_rng g <$> cv_repeat RandomState rng_shuffle fit predict collect model metric folds st r.
Proof.
  unfold cv_repeat. rewrite !shuffle_seeded.
  cbn [set_rng cv_x cv_y cv_rng cv_y_pred cv_score cv_models cv_heap cv_splits].
  destruct (negb (length (cv_x st) =? length (cv_y st))); [done|].
  destruct (take (cv_x st) _) as [x'|e]; [|done].
  destruct (take (cv_y st) _) as [y'|e]; [|done].
  rewrite !bind_Ok, !KFold_split_unshuffled.
  destruct (folds <=? 1); [done|].
  destruct (length x' <? folds); [done|]. rewrite !bind_Ok.
  match goal with
  | |- context [for_each ?b ?s0 ?l ≫= _ = _] =>
      change s0 with (set_rng g {| cv_x := x'; cv_y := y'; cv_y_pred := cv_y_pred st;
                                   cv_score := cv_score st; cv_models := cv_models st;
                                   cv_heap := cv_heap st; cv_rng := cv_rng st;
                                   cv_splits := cv_splits st |});
      rewrite (for_each_commute (set_rng g) b l (cv_fold_set_rng collect model g))
  end.
  destruct (for_each _ _ _) as [st'|e]; [|done]. cbn.
  destruct (setitem1 _ _ _) as [score|e]; reflexivity.
Qed.

Lemma cv_loop_set_rng collect model x y metric folds repeats h g1 g2 :
  cv_loop RandomState rng_shuffle fit predict collect model x y metric folds repeats h g1
  = set_rng g1 <$>
      cv_loop RandomState rng_shuffle fit predict collect model x y metric folds repeats h g2.
Proof.
  unfold cv_loop.
  change (cv_init x y repeats h g1) with (set_rng g1 (cv_init x y repeats h g2)).
  apply for_each_commute. intros s a. apply cv_repeat_set_rng.
Qed.
End Determinism.

(** C9. [cross_validate] does not depend on the state of the process-wide
    random generator: started from any two generator states, with the same
    model, store, data, metric, [folds] and [repeats], it enumerates the
    same (train, test) index pairs in the same order, computes the same
    scores and predictions, leaves the same store and ends the same way. *)
Theorem cross_validate_deterministic
    {num : Type} `{Num num} {rng : Type}
    (RandomState : nat -> rng) (rng_shuffle : rng -> nat -> list nat * rng)
    (fit : addr -> list (list num) -> list num -> heap num -> heap num)
    (predict : addr -> list (list num) -> heap num -> list num)
    (model : addr) (x : list (list num)) (y : list num)
    (metric : pyval num -> pyval num -> num) (folds repeats : nat)
    (h : heap num) (g1 g2 : rng) :
  let run := cv_loop RandomState rng_shuffle fit predict false model x y metric folds repeats h in
  let call := cross_validate RandomState rng_shuffle fit predict model x y metric folds repeats h in
  cv_splits <$> run g1 = cv_splits <$> run g2
  /\ cv_score <$> run g1 = cv_score <$> run g2
  /\ cv_y_pred <$> run g1 = cv_y_pred <$> run g2
  /\ cv_heap <$> run g1 = cv_heap <$> run g2
  /\ fst <$> call g1 = fst <$> call g2.
Proof.
  intros run call. unfold call. rewrite !cross_validate_len_mean. fold run.
  unfold run. rewrite (cv_loop_set_rng _ _ _ _ _ _ _ _ _ _ _ _ g1 g2).
  destruct (cv_loop _ _ _ _ _ _ _ _ _ _ _ _ g2) as [st|e]; cbn; auto.
Qed.

(** ** Index arrays *)

Section Indexing.
Implicit Types (idx : list nat).

Lemma forallb_ltb n idx :
  Forall (fun i => i < n) idx -> forallb (fun i => i <? n) idx = true.
Proof.
  induction 1 as [|i idx Hi _ IH]; [done|].
  cbn [forallb]. apply Nat.ltb_lt in Hi. by rewrite Hi, IH.
Qed.

Lemma take_in_range {A} (a : list A) idx :
  Forall (fun i => i < length a) idx -> take a idx = Ok (gather a idx).
Proof. intros Hidx. unfold take. by rewrite forallb_ltb. Qed.

Lemma gather_cons {A} (a : list A) i idx v :
  a !! i = Some v -> gather a (i :: idx) = v :: gather a idx.
Proof. intros Hi. unfold gather. cbn. by rewrite Hi. Qed.

Lemma gather_lookup {A} (a : list A) idx k :
  Forall (fun i => i < length a) idx ->
  gather a idx !! k = idx !! k ≫= (fun i => a !! i).
Proof.
  intros Hidx. revert k. induction Hidx as [|i idx Hi _ IH]; intros k; [done|].
  destruct (lookup_lt_is_Some_2 _ _ Hi) as [v Hv].
  rewrite (gather_cons a i idx v Hv).
  destruct k as [|k]; [by cbn|]. cbn. apply IH.
Qed.

Lemma length_gather {A} (a : list A) idx :
  Forall (fun i => i < length a) idx -> length (gather a idx) = length idx.
Proof.
  induction 1 as [|i idx Hi _ IH]; [done|].
  destruct (lookup_lt_is_Some_2 _ _ Hi) as [v Hv].
  rewrite (gather_cons a i idx v Hv). cbn. by rewrite IH.
Qed.

(** Reordering twice is reordering by the composed indices. *)
Lemma gather_gather {A} (a : list A) (p q : list nat) :
  Forall (fun i => i < length a) p ->
  gather (gather a p) q = gather a (gather p q).
Proof.
  intros Hp. induction q as [|j q IH]; [done|].
  destruct (p !! j) as [i|] eqn:Hj.
  - rewrite (gather_cons p j q i Hj).
    assert (Hi : i < length a).
    { rewrite Forall_forall in Hp. apply Hp. by eapply list_elem_of_lookup_2. }
    destruct (lookup_lt_is_Some_2 _ _ Hi) as [v Hv].
    rewrite (gather_cons a i _ v Hv).
    erewrite gather_cons; [by rewrite IH|].
    by rewrite gather_lookup, Hj.
  - assert (Hnone : gather a p !! j = None) by (by rewrite gather_lookup, Hj).
    unfold gather at 1 3. cbn. rewrite Hnone, Hj. exact IH.
Qed.

Lemma gather_seq {A} (a : list A) : gather a (seq 0 (length a)) = a.
Proof.
  apply list_eq. intros k. rewrite gather_lookup.
  - destruct (decide (k < length a)) as [Hk|Hk].
    + by rewrite lookup_seq_lt.
    + rewrite lookup_seq_ge by lia. cbn. symmetry. apply lookup_ge_None_2. lia.
  - apply Forall_forall. intros i Hi. apply elem_of_seq in Hi. lia.
Qed.
End Indexing.

Section Scatter.
Context {num : Type} `{Num num}.
Implicit Types (a vals : list num) (idx : list nat).

Lemma scatter_cons a i idx v vals :
  scatter a (i :: idx) (v :: vals) = scatter (<[i := v]> a) idx vals.
Proof. reflexivity. Qed.

Lemma length_scatter a idx vals : length (scatter a idx vals) = length a.
Proof.
  revert a vals. induction idx as [|i idx IH]; intros a [|v vals]; try done.
  rewrite scatter_cons, IH. apply length_insert.
Qed.

(** Positions outside [idx] keep their value. *)
Lemma scatter_lookup_other a idx vals j :
  j ∉ idx -> scatter a idx vals !! j = a !! j.
Proof.
  revert a vals. induction idx as [|i idx IH]; intros a [|v vals] Hj; try done.
  apply not_elem_of_cons in Hj as [Hne Hj].
  rewrite scatter_cons, IH by done. by apply list_lookup_insert_ne.
Qed.

(** Position [idx[k]] receives [vals[k]]. *)
Lemma scatter_lookup a idx vals k i :
  NoDup idx -> Forall (fun i => i < length a) idx -> length vals = length idx ->
  idx !! k = Some i ->
  scatter a idx vals !! i = vals !! k.
Proof.
  revert a vals k. induction idx as [|i0 idx IH]; intros a vals k Hnd Hr Hlen Hk; [done|].
  destruct vals as [|v vals]; [done|].
  apply NoDup_cons in Hnd as [Hnotin Hnd]. apply Forall_cons in Hr as [Hi0 Hr].
  rewrite scatter_cons. destruct k as [|k].
  - injection Hk as ->. rewrite scatter_lookup_other by done.
    cbn. by apply list_lookup_insert_eq.
  - cbn in Hk |- *. apply IH; [done| |by injection Hlen|done].
    by rewrite length_insert.
Qed.

Lemma setitem_in_range a idx vals :
  Forall (fun i => i < length a) idx -> length vals = length idx ->
  setitem a idx vals = Ok (scatter a idx vals).
Proof.
  intros Hr Hlen. unfold setitem.
  by rewrite forallb_ltb, Hlen, Nat.eqb_refl.
Qed.

Lemma setitem1_in_range a i v :
  i < length a -> setitem1 a i v = Ok (<[i := v]> a).
Proof. intros Hi. unfold setitem1. by apply Nat.ltb_lt in Hi as ->. Qed.
End Scatter.

(** ** KFold: the folds partition the rows *)

Section KFoldPartition.
Lemma mem_elem_of i l : mem i l <-> i ∈ l.
Proof.
  unfold mem. rewrite existb_True, Exists_exists. split.
  - intros (j & Hj & Heq). apply Is_true_true, Nat.eqb_eq in Heq. by subst.
  - intros Hi. exists i. split; [done|]. apply Is_true_true, Nat.eqb_refl.
Qed.

Lemma elem_of_concat {A} (x : A) (ls : list (list A)) :
  x ∈ concat ls <-> exists l, l ∈ ls /\ x ∈ l.
Proof.
  induction ls as [|l0 ls IH]; cbn.
  - split; [by intros ?%elem_of_nil|]. by intros (l & ?%elem_of_nil & _).
  - rewrite elem_of_app, IH. split.
    + intros [Hx|(l & Hl & Hx)]; [exists l0|exists l]; split; try done;
        [apply list_elem_of_here|by apply list_elem_of_further].
    + intros (l & Hl & Hx). apply elem_of_cons in Hl as [->|Hl]; eauto.
Qed.

Lemma length_fold_slices indices sizes :
  length (fold_slices indices sizes) = length sizes.
Proof.
  revert indices. induction sizes as [|s sizes IH]; intros indices; [done|].
  cbn. by rewrite IH.
Qed.

Lemma concat_fold_slices indices sizes :
  concat (fold_slices indices sizes) = firstn (sum_list sizes) indices.
Proof.
  revert indices. induction sizes as [|s sizes IH]; intros indices.
  - done.
  - cbn [fold_slices concat sum_list sum_list_with]. rewrite IH.
    apply take_take_drop.
Qed.

Lemma sum_fold_sizes_upto q m k :
  sum_list (map (fun i => q + (if i <? m then 1 else 0)) (seq 0 k)) = k * q + k `min` m.
Proof.
  induction k as [|k IH]; [done|].
  rewrite seq_S, map_app, sum_list_with_app, IH. cbn [map sum_list_with plus].
  unfold id. destruct (k <? m) eqn:Hk.
  - apply Nat.ltb_lt in Hk. lia.
  - apply Nat.ltb_ge in Hk. lia.
Qed.

(** The fold sizes add up to the number of rows. *)
Lemma sum_fold_sizes n_splits n :
  0 < n_splits -> sum_list (fold_sizes n_splits n) = n.
Proof.
  intros Hk. unfold fold_sizes. rewrite sum_fold_sizes_upto.
  pose proof (Nat.mod_upper_bound n n_splits ltac:(lia)) as Hm.
  pose proof (Nat.div_mod_eq n n_splits) as Hdm. lia.
Qed.

Lemma length_splits_of indices n_splits n :
  length (splits_of indices n_splits n) = n_splits.
Proof.
  unfold splits_of, fold_sizes.
  by rewrite length_map, length_fold_slices, length_map, length_seq.
Qed.

(** Every index of a split is a row number. *)
Lemma splits_of_in_range indices n_splits n :
  Forall (fun sp => Forall (fun i => i < n) sp.1 /\ Forall (fun i => i < n) sp.2)
         (splits_of indices n_splits n).
Proof.
  unfold splits_of. apply Forall_map, Forall_forall. intros test _. cbn.
  split; apply Forall_forall; intros i Hi;
    apply list_elem_of_filter in Hi as [_ Hi]; apply elem_of_seq in Hi; lia.
Qed.

Lemma elem_of_test_rows i n (slice : list nat) :
  i ∈ filter (fun i => mem i slice) (seq 0 n) <-> i ∈ slice /\ i < n.
Proof.
  rewrite list_elem_of_filter, mem_elem_of, elem_of_seq. intuition lia.
Qed.

Lemma NoDup_test_rows n (slices : list (list nat)) :
  NoDup (concat slices) ->
  NoDup (concat (map (fun slice => filter (fun i => mem i slice) (seq 0 n)) slices)).
Proof.
  induction slices as [|slice slices IH]; [done|].
  cbn [concat map]. rewrite !NoDup_app. intros (Hs & Hdisj & Hrest).
  split; [|split].
  - apply NoDup_filter, NoDup_seq.
  - intros i Hi Hin. apply elem_of_test_rows in Hi as [Hi _].
    apply (Hdisj i Hi). apply elem_of_concat in Hin as (t & Ht & Hit).
    apply list_elem_of_fmap in Ht as (slice' & -> & Hslice').
    apply elem_of_test_rows in Hit as [Hit _].
    apply elem_of_concat. eauto.
  - by apply IH.
Qed.

(** No row is tested twice in one pass over the folds. *)
Lemma NoDup_splits_of n_splits n :
  NoDup (concat (map snd (splits_of (seq 0 n) n_splits n))).
Proof.
  unfold splits_of. rewrite map_map. cbn [snd].
  apply NoDup_test_rows. rewrite concat_fold_slices.
  eapply sublist_NoDup; [apply NoDup_seq|apply sublist_take].
Qed.

(** Every row is tested in one pass over the folds. *)
Lemma splits_of_cover n_splits n i :
  0 < n_splits -> i < n ->
  exists sp, sp ∈ splits_of (seq 0 n) n_splits n /\ i ∈ sp.2.
Proof.
  intros Hk Hi.
  assert (Hin : i ∈ concat (fold_slices (seq 0 n) (fold_sizes n_splits n))).
  { rewrite concat_fold_slices, sum_fold_sizes by done.
    rewrite firstn_all2 by (rewrite length_seq; lia).
    apply elem_of_seq. lia. }
  apply elem_of_concat in Hin as (slice & Hslice & Hmem).
  eexists. split.
  - unfold splits_of. apply list_elem_of_fmap. eexists. split; [reflexivity|exact Hslice].
  - cbn. by apply elem_of_test_rows.
Qed.
End KFoldPartition.

(** ** The cross-validation loops run to the end *)

Section Loops.
Context {num : Type} `{Num num} {rng : Type}.
Variable RandomState : nat -> rng.
Variable rng_shuffle : rng -> nat -> list nat * rng.
Variable fit : addr -> list (list num) -> list num -> heap num -> heap num.
Variable predict : addr -> list (list num) -> heap num -> list num.
Hypothesis Hshuffle : valid_shuffle RandomState rng_shuffle.
Hypothesis Hpredict : predicts_each_row predict.
Variables (collect : bool) (model : addr) (metric : pyval num -> pyval num -> num).
Variable folds : nat.

Implicit Types (st : @cv_state num rng) (splits : list (list nat * list nat)).

Lemma for_each_app {S A} (body : S -> A -> result S) (s : S) (l1 l2 : list A) :
  for_each body s (l1 ++ l2) = (s' ← for_each body s l1; for_each body s' l2).
Proof.
  revert s. induction l1 as [|a l1 IH]; intros s; [done|].
  cbn [for_each app]. destruct (body s a) as [s'|e]; [|done]. cbn. apply IH.
Qed.

Lemma seeded_perm_length seed n :
  length (seeded_perm RandomState rng_shuffle seed n) = n.
Proof. by rewrite (Hshuffle seed n), length_seq. Qed.

Lemma seeded_perm_in_range seed n :
  Forall (fun i => i < n) (seeded_perm RandomState rng_shuffle seed n).
Proof.
  rewrite (Hshuffle seed n). apply Forall_forall. intros i Hi.
  apply elem_of_seq in Hi. lia.
Qed.

Lemma Forall_gather {A} (P : A -> Prop) (a : list A) idx :
  Forall P a -> Forall P (gather a idx).
Proof.
  intros Ha. induction idx as [|i idx IH]; [constructor|].
  unfold gather. cbn. destruct (a !! i) as [v|] eqn:Hv; [|exact IH].
  constructor; [|exact IH].
  rewrite Forall_forall in Ha. apply Ha. by eapply list_elem_of_lookup_2.
Qed.

Lemma cum_order_sized r n :
  length (cum_order RandomState rng_shuffle r n) = n
  /\ Forall (fun i => i < n) (cum_order RandomState rng_shuffle r n).
Proof.
  induction r as [|r [IHlen IHrange]]; cbn [cum_order].
  - split; [apply seeded_perm_length|apply seeded_perm_in_range].
  - split.
    + rewrite length_gather; [apply seeded_perm_length|].
      rewrite IHlen. apply seeded_perm_in_range.
    + by apply Forall_gather.
Qed.

(** One pass of the inner loop body. *)
Lemma cv_fold_ok n st train test :
  cv_sized n st ->
  Forall (fun i => i < n) train -> Forall (fun i => i < n) test ->
  cv_fold fit predict collect model st (train, test)
  = Ok {| cv_x := cv_x st; cv_y := cv_y st;
          cv_y_pred :=
            scatter (cv_y_pred st) test
              (predict model (gather (cv_x st) test)
                 (after_fit fit collect model (gather (cv_x st) train)
                    (gather (cv_y st) train) (cv_heap st)));
          cv_score := cv_score st;
          cv_models :=
            (if collect
             then cv_models st
                  ++ [length (fit model (gather (cv_x st) train)
                                (gather (cv_y st) train) (cv_heap st))]
             else cv_models st);
          cv_heap := after_fit fit collect model (gather (cv_x st) train)
                       (gather (cv_y st) train) (cv_heap st);
          cv_rng := cv_rng st; cv_splits := cv_splits st ++ [(train, test)] |}.
Proof.
  intros (Hx & Hy & Hp) Htrain Htest. unfold cv_fold.
  rewrite !take_in_range by (by rewrite ?Hx, ?Hy).
  rewrite !bind_Ok. unfold after_fit.
  destruct collect; cbn [copy_copy fst];
    rewrite setitem_in_range;
    try (by rewrite Hp);
    try (rewrite Hpredict, length_gather; [done|by rewrite Hx]);
    reflexivity.
Qed.

(** The inner loop over folds whose test rows do not overlap. *)
Lemma cv_folds_ok n splits st :
  cv_sized n st ->
  Forall (fun sp => Forall (fun i => i < n) sp.1 /\ Forall (fun i => i < n) sp.2) splits ->
  NoDup (concat (map snd splits)) ->
  exists st',
    for_each (cv_fold fit predict collect model) st splits = Ok st'
    /\ cv_x st' = cv_x st /\ cv_y st' = cv_y st
    /\ length (cv_y_pred st') = n
    /\ cv_score st' = cv_score st /\ cv_rng st' = cv_rng st
    /\ length (cv_models st')
       = length (cv_models st) + (if collect then length splits else 0)
    /\ cv_splits st' = cv_splits st ++ splits
    /\ (forall i, i ∉ concat (map snd splits) -> cv_y_pred st' !! i = cv_y_pred st !! i)
    /\ (forall train test k i,
          (train, test) ∈ splits -> test !! k = Some i ->
          exists h0,
            cv_y_pred st' !! i
            = predict model (gather (cv_x st) test)
                (after_fit fit collect model (gather (cv_x st) train)
                   (gather (cv_y st) train) h0) !! k).
Proof.
  revert st. induction splits as [|[train test] splits IH]; intros st Hsized Hrange Hnd.
  - exists st. destruct Hsized as (Hx & Hy & Hp).
    repeat split; try done.
    + destruct collect; cbn; lia.
    + by rewrite app_nil_r.
    + intros train test k i Hin. by apply elem_of_nil in Hin.
  - apply Forall_cons in Hrange as [[Htrain Htest] Hrange].
    cbn [map concat snd] in Hnd. apply NoDup_app in Hnd as (Hndt & Hdisj & Hnd).
    cbn [for_each]. rewrite (cv_fold_ok n st train test Hsized Htrain Htest).
    rewrite bind_Ok.
    set (st1 := {| cv_x := cv_x st |}).
    destruct Hsized as (Hx & Hy & Hp).
    assert (Hsized1 : cv_sized n st1).
    { repeat split; cbn; try done. by rewrite length_scatter. }
    destruct (IH st1 Hsized1 Hrange Hnd)
      as (st' & Hrun & Hx' & Hy' & Hp' & Hsc & Hg & Hm & Hs & Hkeep & Hpred).
    exists st'. cbn [cv_x cv_y cv_score cv_rng cv_models cv_splits st1] in *.
    split; [exact Hrun|]. split; [exact Hx'|]. split; [exact Hy'|].
    split; [exact Hp'|]. split; [exact Hsc|]. split; [exact Hg|].
    split; [|split; [|split]].
    + rewrite Hm. destruct collect; rewrite ?length_app; cbn; lia.
    + rewrite Hs, <- app_assoc. reflexivity.
    + intros i Hi. cbn [map concat snd] in Hi.
      apply not_elem_of_app in Hi as [Hi1 Hi2].
      rewrite (Hkeep i Hi2). cbn. by apply scatter_lookup_other.
    + intros train' test' k i Hin Hk.
      apply elem_of_cons in Hin as [Heq|Hin].
      * injection Heq as -> ->. exists (cv_heap st).
        rewrite Hkeep by (apply Hdisj; by eapply list_elem_of_lookup_2).
        cbn. apply scatter_lookup; [done|by rewrite Hp| |done].
        rewrite Hpredict, length_gather; [done|by rewrite Hx].
      * apply (Hpred train' test' k i Hin Hk).
Qed.
(** One pass of the outer loop body. *)
Lemma cv_repeat_ok n st r :
  cv_sized n st -> r < length (cv_score st) -> 2 <= folds -> folds <= n ->
  exists st',
    cv_repeat RandomState rng_shuffle fit predict collect model metric folds st r = Ok st'
    /\ cv_x st' = gather (cv_x st) (seeded_perm RandomState rng_shuffle r n)
    /\ cv_y st' = gather (cv_y st) (seeded_perm RandomState rng_shuffle r n)
    /\ cv_sized n st'
    /\ length (cv_score st') = length (cv_score st)
    /\ cv_score st' !! r = Some (metric (Nd1 (cv_y_pred st')) (Nd1 (cv_y st')))
    /\ length (cv_models st') = length (cv_models st) + (if collect then folds else 0)
    /\ aligned fit predict collect model folds (cv_x st') (cv_y st') (cv_y_pred st').
Proof.
  intros (Hx & Hy & Hp) Hr Hfolds2 Hfoldsn. unfold cv_repeat.
  rewrite shuffle_seeded, Hx, Hy, Nat.eqb_refl. cbn [negb].
  pose proof (seeded_perm_in_range r n) as Hrange.
  pose proof (seeded_perm_length r n) as Hlen.
  set (p := seeded_perm RandomState rng_shuffle r n) in *.
  rewrite !take_in_range by (by rewrite ?Hx, ?Hy). rewrite !bind_Ok.
  assert (Hx' : length (gather (cv_x st) p) = n)
    by (rewrite length_gather; [done|by rewrite Hx]).
  assert (Hy' : length (gather (cv_y st) p) = n)
    by (rewrite length_gather; [done|by rewrite Hy]).
  rewrite KFold_split_unshuffled, Hx'.
  assert (Hk1 : (folds <=? 1) = false) by (apply Nat.leb_gt; lia).
  assert (Hk2 : (n <? folds) = false) by (apply Nat.ltb_ge; lia).
  rewrite Hk1, Hk2, bind_Ok.
  set (st0 := {| cv_x := gather (cv_x st) p |}).
  assert (Hsized0 : cv_sized n st0) by (by repeat split).
  destruct (cv_folds_ok n (splits_of (seq 0 n) folds n) st0 Hsized0
              (splits_of_in_range _ _ _) (NoDup_splits_of _ _))
    as (st' & Hrun & Hx1 & Hy1 & Hp1 & Hsc & Hg & Hm & Hs & Hkeep & Hpred).
  rewrite Hrun, bind_Ok.
  rewrite setitem1_in_range by (by rewrite Hsc).
  rewrite bind_Ok. eexists. split; [reflexivity|].
  cbn [cv_x cv_y cv_y_pred cv_score cv_models st0] in *.
  split; [exact Hx1|]. split; [exact Hy1|].
  split; [repeat split; cbn; [by rewrite Hx1|by rewrite Hy1|exact Hp1]|].
  split; [by rewrite length_insert, Hsc|].
  split; [rewrite list_lookup_insert_eq; [done|by rewrite Hsc]|].
  split; [rewrite Hm, length_splits_of; reflexivity|].
  intros i Hi. rewrite Hx1, Hx' in Hi |- *. rewrite Hy1.
  destruct (splits_of_cover folds n i ltac:(lia) Hi) as ([train test] & Hin & Hmem).
  apply list_elem_of_lookup_1 in Hmem as [k Hk].
  destruct (Hpred train test k i Hin Hk) as [h0 Hval].
  exists train, test, k, h0. by repeat split.
Qed.

Lemma gather_seq_indices n (p : list nat) :
  Forall (fun i => i < n) p -> gather (seq 0 n) p = p.
Proof.
  induction 1 as [|i p Hi _ IH]; [done|].
  rewrite (gather_cons (seq 0 n) i p i) by (by apply lookup_seq_lt).
  by rewrite IH.
Qed.

(** The outer loop reaches the end of each of its first [k] passes. At
    that point the rows are the caller's rows reordered by the composed
    shuffles, and one model per fold and pass has been collected. *)
Lemma cv_after_ok k x y repeats h g :
  length x = length y -> 2 <= folds -> folds <= length x -> k <= repeats ->
  exists st,
    cv_after RandomState rng_shuffle fit predict k collect model x y metric folds repeats h g
    = Ok st
    /\ cv_sized (length x) st
    /\ length (cv_score st) = repeats
    /\ length (cv_models st) = (if collect then folds * k else 0)
    /\ cv_x st = gather x (match k with
                           | 0 => seq 0 (length x)
                           | S r => cum_order RandomState rng_shuffle r (length x)
                           end)
    /\ cv_y st = gather y (match k with
                           | 0 => seq 0 (length x)
                           | S r => cum_order RandomState rng_shuffle r (length x)
                           end).
Proof.
  intros Hxy Hfolds2 Hfoldsn. unfold cv_after. induction k as [|k IH]; intros Hk.
  - eexists. split; [reflexivity|].
    unfold cv_sized, cv_init. cbn [cv_x cv_y cv_y_pred cv_score cv_models].
    rewrite !length_np_zeros.
    split; [by repeat split|]. split; [done|].
    split; [destruct collect; cbn [length]; lia|].
    split; [by rewrite gather_seq|by rewrite Hxy, gather_seq].
  - destruct IH as (st & Hrun & Hsized & Hscore & Hmodels & Hx & Hy); [lia|].
    rewrite seq_S, for_each_app, Hrun, bind_Ok. cbn [for_each plus].
    destruct (cv_repeat_ok (length x) st k Hsized ltac:(lia) Hfolds2 Hfoldsn)
      as (st' & Hrun' & Hx' & Hy' & Hsized' & Hscore' & _ & Hmodels' & _).
    rewrite Hrun', bind_Ok. exists st'. split; [reflexivity|].
    split; [exact Hsized'|]. split; [lia|].
    split; [rewrite Hmodels', Hmodels; destruct collect; lia|].
    assert (Horder : gather (match k with
                             | 0 => seq 0 (length x)
                             | S r => cum_order RandomState rng_shuffle r (length x)
                             end) (seeded_perm RandomState rng_shuffle k (length x))
                     = cum_order RandomState rng_shuffle k (length x)).
    { destruct k as [|r]; [|reflexivity].
      apply gather_seq_indices, seeded_perm_in_range. }
    assert (Hrange : Forall (fun i => i < length x)
                       (match k with
                        | 0 => seq 0 (length x)
                        | S r => cum_order RandomState rng_shuffle r (length x)
                        end)).
    { destruct k as [|r]; [|apply cum_order_sized].
      apply Forall_forall. intros i Hi. apply elem_of_seq in Hi. lia. }
    rewrite Hx', Hy', Hx, Hy.
    rewrite !gather_gather, Horder; [done| |done]. by rewrite <- Hxy.
Qed.
End Loops.

(** ** The concrete collaborators meet their contracts *)

Lemma Toy_valid_shuffle : valid_shuffle Toy.RandomState Toy.rng_shuffle.
Proof.
  intros seed n. unfold seeded_perm, Toy.rng_shuffle, Toy.RandomState. cbn [fst].
  unfold rotate. rewrite Permutation_app_comm. by rewrite take_drop.
Qed.

Lemma Toy_predicts_each_row {num : Type} `{Num num} :
  predicts_each_row (Toy.predict (num:=num)).
Proof. intros m x h. unfold Toy.predict. apply length_replicate. Qed.

(** ** get_cross_validation_models *)

Section Collect.
Context {num : Type} `{Num num} {rng : Type}.
Variable RandomState : nat -> rng.
Variable rng_shuffle : rng -> nat -> list nat * rng.
Variable fit : addr -> list (list num) -> list num -> heap num -> heap num.
Variable predict : addr -> list (list num) -> heap num -> list num.

(** The collecting loop ends with one stored model per fold and repeat,
    and the call returns them as an [EnsembleRegressor]. *)
Lemma get_cross_validation_models_ok model x y metric folds repeats h g :
  valid_shuffle RandomState rng_shuffle -> predicts_each_row predict ->
  length x = length y -> 2 <= folds -> folds <= length x ->
  exists st,
    get_cross_validation_models RandomState rng_shuffle fit predict
      model x y metric folds repeats h g = Ok (PyEnsemble (cv_models st), st)
    /\ length (cv_models st) = folds * repeats.
Proof.
  intros Hshuffle Hpredict Hxy Hfolds2 Hfoldsn.
  destruct (cv_after_ok RandomState rng_shuffle fit predict Hshuffle Hpredict
              true model metric folds repeats x y repeats h g Hxy Hfolds2 Hfoldsn
              (Nat.le_refl _)) as (st & Hrun & _ & _ & Hmodels & _).
  exists st. split; [|exact Hmodels].
  unfold get_cross_validation_models, cv_loop. unfold cv_after in Hrun.
  by rewrite Hrun.
Qed.
End Collect.

(** C2 (defect). For two or more folds and as many rows, with targets of
    the length of the features, [get_cross_validation_models] returns the
    ensemble alone: the value of the call is an [EnsembleRegressor] whose
    [models] are the models collected by the loop, and not a pair that
    also carries the mean score, which the docstring names as the value
    returned and which [cross_validate] is written to return. *)
Theorem get_cross_validation_models_returns_ensemble
    {num : Type} `{Num num} {rng : Type}
    (RandomState : nat -> rng) (rng_shuffle : rng -> nat -> list nat * rng)
    (fit : addr -> list (list num) -> list num -> heap num -> heap num)
    (predict : addr -> list (list num) -> heap num -> list num)
    (model : addr) (x : list (list num)) (y : list num)
    (metric : pyval num -> pyval num -> num) (folds repeats : nat)
    (h : heap num) (g : rng) :
  valid_shuffle RandomState rng_shuffle -> predicts_each_row predict ->
  length x = length y -> 2 <= folds -> folds <= length x ->
  (exists st,
     cv_loop RandomState rng_shuffle fit predict true model x y metric folds repeats h g
     = Ok st
     /\ get_cross_validation_models RandomState rng_shuffle fit predict
          model x y metric folds repeats h g = Ok (PyEnsemble (cv_models st), st))
  /\ ~ exists ensemble mean st,
         get_cross_validation_models RandomState rng_shuffle fit predict
           model x y metric folds repeats h g = Ok (PyPair ensemble mean, st).
Proof.
  intros Hshuffle Hpredict Hxy Hfolds2 Hfoldsn.
  destruct (get_cross_validation_models_ok RandomState rng_shuffle fit predict
              model x y metric folds repeats h g Hshuffle Hpredict Hxy Hfolds2 Hfoldsn)
    as (st & Hret & _).
  split.
  - exists st. split; [|exact Hret].
    unfold get_cross_validation_models in Hret.
    destruct (cv_loop _ _ _ _ _ _ _ _ _ _ _ _ _) as [st'|e]; [|discriminate].
    cbn in Hret. by injection Hret as _ ->.
  - intros (ensemble & mean & st' & Hpair). rewrite Hpair in Hret. discriminate.
Qed.

Lemma get_cross_validation_models_returns_ensemble_witness :
  valid_shuffle Toy.RandomState Toy.rng_shuffle
  /\ predicts_each_row (Toy.predict (num:=float))
  /\ length [[1%float]; [2%float]] = length [10%float; 20%float]
  /\ 2 <= 2 /\ 2 <= length [[1%float]; [2%float]]
  /\ (exists st,
        cv_loop Toy.RandomState Toy.rng_shuffle Toy.fit Toy.predict true
          0 [[1%float]; [2%float]] [10%float; 20%float] Toy.mean_squared_error 2 1
          [Toy.mean_model] 0 = Ok st
        /\ get_cross_validation_models Toy.RandomState Toy.rng_shuffle Toy.fit Toy.predict
             0 [[1%float]; [2%float]] [10%float; 20%float] Toy.mean_squared_error 2 1
             [Toy.mean_model] 0 = Ok (PyEnsemble (cv_models st), st))
  /\ ~ exists ensemble mean st,
         get_cross_validation_models Toy.RandomState Toy.rng_shuffle Toy.fit Toy.predict
           0 [[1%float]; [2%float]] [10%float; 20%float] Toy.mean_squared_error 2 1
           [Toy.mean_model] 0 = Ok (PyPair ensemble mean, st).
Proof.
  assert (Hxy : length [[1%float]; [2%float]] = length [10%float; 20%float])
    by reflexivity.
  assert (H2 : 2 <= 2) by lia.
  assert (Hn : 2 <= length [[1%float]; [2%float]]) by (cbn; lia).
  split; [exact Toy_valid_shuffle|]. split; [exact Toy_predicts_each_row|].
  split; [exact Hxy|]. split; [exact H2|]. split; [exact Hn|].
  exact (get_cross_validation_models_returns_ensemble Toy.RandomState Toy.rng_shuffle
           Toy.fit Toy.predict 0 [[1%float]; [2%float]] [10%float; 20%float]
           Toy.mean_squared_error 2 1 [Toy.mean_model] 0
           Toy_valid_shuffle Toy_predicts_each_row Hxy H2 Hn).
Defined.

(** On two rows, two folds and one repeat the value returned is an
    [EnsembleRegressor] of two models, not a pair. *)
Lemma get_cross_validation_models_not_a_pair :
  (fst <$> get_cross_validation_models Toy.RandomState Toy.rng_shuffle Toy.fit Toy.predict
      0 [[1%float]; [2%float]] [10%float; 20%float] Toy.mean_squared_error 2 1
      [Toy.mean_model] 0) = Ok (PyEnsemble [1; 2])
  /\ ~ exists ensemble mean st,
         get_cross_validation_models Toy.RandomState Toy.rng_shuffle Toy.fit Toy.predict
           0 [[1%float]; [2%float]] [10%float; 20%float] Toy.mean_squared_error 2 1
           [Toy.mean_model] 0 = Ok (PyPair ensemble mean, st).
Proof.
  assert (Hval : (fst <$> get_cross_validation_models Toy.RandomState Toy.rng_shuffle
                     Toy.fit Toy.predict 0 [[1%float]; [2%float]] [10%float; 20%float]
                     Toy.mean_squared_error 2 1 [Toy.mean_model] 0)
                 = Ok (PyEnsemble [1; 2])) by (vm_compute; reflexivity).
  split; [exact Hval|].
  intros (ensemble & mean & st & Heq). rewrite Heq in Hval. discriminate.
Qed.

(** C5 (defect). The stored models are shallow copies. For a pipeline, whose
    fitted state lives in the object its [final] attribute refers to, the
    two models stored over two folds and one repeat are as many as folds
    times repeats, but both refer to the inner object of the live model:
    the first, which predicted 10 when it was stored, predicts 20 once the
    second fold has been fitted. *)
Theorem get_cross_validation_models_shares_fitted_state :
  exists st,
    get_cross_validation_models Toy.RandomState Toy.rng_shuffle Toy.fit Toy.predict
      1 [[1%float]; [2%float]] [10%float; 20%float] Toy.mean_squared_error 2 1
      [Toy.mean_model; Toy.pipeline 0] 0 = Ok (PyEnsemble [2; 3], st)
    /\ length (cv_models st) = 2 * 1
    /\ cv_heap st !! 1 = Some (Toy.pipeline 0)
    /\ cv_heap st !! 2 = Some (Toy.pipeline 0)
    /\ cv_heap st !! 3 = Some (Toy.pipeline 0)
    /\ Toy.predict 2 [[1%float]; [2%float]]
         (after_fit Toy.fit true 1 [[1%float]] [10%float] [Toy.mean_model; Toy.pipeline 0])
       = [10%float; 10%float]
    /\ Toy.predict 2 [[1%float]; [2%float]] (cv_heap st) = [20%float; 20%float].
Proof.
  eexists. split; [vm_compute; reflexivity|].
  repeat split; vm_compute; reflexivity.
Qed.

(** ** The row order of a repeat *)

(** C10. In both loops ([collect] false or true), with a generator that
    yields permutations and a model that predicts one value per row, the
    pass for repeat [r] ends with [x] and [y] bound to the caller's rows
    reordered by the composition of the shuffles with seeds [0] to [r];
    [score[r]] is the metric of the prediction buffer against the targets in
    that order, and every entry of the buffer is the prediction for the row
    at the same position in that order. *)
Theorem cv_repeat_uses_composed_shuffles
    {num : Type} `{Num num} {rng : Type}
    (RandomState : nat -> rng) (rng_shuffle : rng -> nat -> list nat * rng)
    (fit : addr -> list (list num) -> list num -> heap num -> heap num)
    (predict : addr -> list (list num) -> heap num -> list num)
    (collect : bool) (model : addr) (x : list (list num)) (y : list num)
    (metric : pyval num -> pyval num -> num) (folds repeats : nat)
    (h : heap num) (g : rng) (r : nat) :
  valid_shuffle RandomState rng_shuffle -> predicts_each_row predict ->
  length x = length y -> 2 <= folds -> folds <= length x -> r < repeats ->
  let order := cum_order RandomState rng_shuffle r (length x) in
  exists st,
    cv_after RandomState rng_shuffle fit predict (S r) collect model x y metric
      folds repeats h g = Ok st
    /\ cv_x st = gather x order
    /\ cv_y st = gather y order
    /\ cv_score st !! r = Some (metric (Nd1 (cv_y_pred st)) (Nd1 (gather y order)))
    /\ aligned fit predict collect model folds (gather x order) (gather y order)
         (cv_y_pred st).
Proof.
  intros Hshuffle Hpredict Hxy Hfolds2 Hfoldsn Hr order.
  destruct (cv_after_ok RandomState rng_shuffle fit predict Hshuffle Hpredict
              collect model metric folds (S r) x y repeats h g Hxy Hfolds2 Hfoldsn
              ltac:(lia)) as (st & Hrun & _ & _ & _ & Hx & Hy).
  exists st. split; [exact Hrun|]. split; [exact Hx|]. split; [exact Hy|].
  destruct (cv_after_ok RandomState rng_shuffle fit predict Hshuffle Hpredict
              collect model metric folds r x y repeats h g Hxy Hfolds2 Hfoldsn
              ltac:(lia)) as (st0 & Hrun0 & Hsized0 & Hscore0 & _).
  destruct (cv_repeat_ok RandomState rng_shuffle fit predict Hshuffle Hpredict
              collect model metric folds (length x) st0 r Hsized0 ltac:(lia)
              Hfolds2 Hfoldsn)
    as (st' & Hrun' & _ & _ & _ & _ & Hscore & _ & Haligned).
  assert (Heq : st' = st).
  { unfold cv_after in Hrun, Hrun0.
    rewrite seq_S, for_each_app, Hrun0, bind_Ok in Hrun. cbn [for_each plus] in Hrun.
    rewrite Hrun', bind_Ok in Hrun. by injection Hrun. }
  subst st'. rewrite Hx, Hy in Haligned. rewrite Hy in Hscore.
  split; [exact Hscore|exact Haligned].
Qed.

Lemma cv_repeat_uses_composed_shuffles_witness :
  valid_shuffle Toy.RandomState Toy.rng_shuffle
  /\ predicts_each_row (Toy.predict (num:=float))
  /\ length [[1%float]; [2%float]; [3%float]; [4%float]]
     = length [10%float; 20%float; 30%float; 40%float]
  /\ 2 <= 2 /\ 2 <= length [[1%float]; [2%float]; [3%float]; [4%float]] /\ 1 < 2
  /\ exists st,
       cv_after Toy.RandomState Toy.rng_shuffle Toy.fit Toy.predict 2 true 0
         [[1%float]; [2%float]; [3%float]; [4%float]]
         [10%float; 20%float; 30%float; 40%float] Toy.mean_squared_error 2 2
         [Toy.mean_model] 0 = Ok st
       /\ cv_x st = gather [[1%float]; [2%float]; [3%float]; [4%float]]
                      (cum_order Toy.RandomState Toy.rng_shuffle 1 4)
       /\ cv_y st = gather [10%float; 20%float; 30%float; 40%float]
                      (cum_order Toy.RandomState Toy.rng_shuffle 1 4)
       /\ cv_score st !! 1
          = Some (Toy.mean_squared_error (Nd1 (cv_y_pred st))
                    (Nd1 (gather [10%float; 20%float; 30%float; 40%float]
                            (cum_order Toy.RandomState Toy.rng_shuffle 1 4))))
       /\ aligned Toy.fit Toy.predict true 0 2
            (gather [[1%float]; [2%float]; [3%float]; [4%float]]
               (cum_order Toy.RandomState Toy.rng_shuffle 1 4))
            (gather [10%float; 20%float; 30%float; 40%float]
               (cum_order Toy.RandomState Toy.rng_shuffle 1 4))
            (cv_y_pred st).
Proof.
  assert (Hxy : length [[1%float]; [2%float]; [3%float]; [4%float]]
                = length [10%float; 20%float; 30%float; 40%float]) by reflexivity.
  assert (H2 : 2 <= 2) by lia.
  assert (Hn : 2 <= length [[1%float]; [2%float]; [3%float]; [4%float]]) by (cbn; lia).
  assert (Hr : 1 < 2) by lia.
  split; [exact Toy_valid_shuffle|]. split; [exact Toy_predicts_each_row|].
  split; [exact Hxy|]. split; [exact H2|]. split; [exact Hn|]. split; [exact Hr|].
  exact (cv_repeat_uses_composed_shuffles Toy.RandomState Toy.rng_shuffle
           Toy.fit Toy.predict true 0 [[1%float]; [2%float]; [3%float]; [4%float]]
           [10%float; 20%float; 30%float; 40%float] Toy.mean_squared_error 2 2
           [Toy.mean_model] 0 1 Toy_valid_shuffle Toy_predicts_each_row Hxy H2 Hn Hr).
Defined.

(** With the rotating generator and four rows, the order during the second
    repeat is neither the caller's order nor the order of the second shuffle
    alone, and the targets handed to the metric are in that order. *)
Example composed_order_differs :
  cum_order Toy.RandomState Toy.rng_shuffle 1 4 = [3; 0; 1; 2]
  /\ seeded_perm Toy.RandomState Toy.rng_shuffle 1 4 = [2; 3; 0; 1]
  /\ (cv_y <$> cv_after Toy.RandomState Toy.rng_shuffle Toy.fit Toy.predict 2 false 0
        [[1%float]; [2%float]; [3%float]; [4%float]]
        [10%float; 20%float; 30%float; 40%float] Toy.mean_squared_error 2 2
        [Toy.mean_model] 0) = Ok [40%float; 10%float; 20%float; 30%float].
Proof. repeat split; vm_compute; reflexivity. Qed.

(** * Further properties *)

(** ** The size of the collected ensemble *)

(** X1. For two or more folds and as many rows, with targets of the length
    of the features, the ensemble returned by
    [get_cross_validation_models] has exactly [folds * repeats] members. *)
Theorem get_cross_validation_models_size
    {num : Type} `{Num num} {rng : Type}
    (RandomState : nat -> rng) (rng_shuffle : rng -> nat -> list nat * rng)
    (fit : addr -> list (list num) -> list num -> heap num -> heap num)
    (predict : addr -> list (list num) -> heap num -> list num)
    (model : addr) (x : list (list num)) (y : list num)
    (metric : pyval num -> pyval num -> num) (folds repeats : nat)
    (h : heap num) (g : rng) :
  valid_shuffle RandomState rng_shuffle -> predicts_each_row predict ->
  length x = length y -> 2 <= folds -> folds <= length x ->
  exists models st,
    get_cross_validation_models RandomState rng_shuffle fit predict
      model x y metric folds repeats h g = Ok (PyEnsemble models, st)
    /\ length models = folds * repeats.
Proof.
  intros Hshuffle Hpredict Hxy Hfolds2 Hfoldsn.
  destruct (get_cross_validation_models_ok RandomState rng_shuffle fit predict
              model x y metric folds repeats h g Hshuffle Hpredict Hxy Hfolds2 Hfoldsn)
    as (st & Hret & Hsize).
  by exists (cv_models st), st.
Qed.

Lemma get_cross_validation_models_size_witness :
  valid_shuffle Toy.RandomState Toy.rng_shuffle
  /\ predicts_each_row (Toy.predict (num:=float))
  /\ length [[1%float]; [2%float]; [3%float]] = length [10%float; 20%float; 30%float]
  /\ 2 <= 3 /\ 3 <= length [[1%float]; [2%float]; [3%float]]
  /\ exists models st,
       get_cross_validation_models Toy.RandomState Toy.rng_shuffle Toy.fit Toy.predict
         0 [[1%float]; [2%float]; [3%float]] [10%float; 20%float; 30%float]
         Toy.mean_squared_error 3 2 [Toy.mean_model] 0 = Ok (PyEnsemble models, st)
       /\ length models = 3 * 2.
Proof.
  assert (Hxy : length [[1%float]; [2%float]; [3%float]]
                = length [10%float; 20%float; 30%float]) by reflexivity.
  assert (H2 : 2 <= 3) by lia.
  assert (Hn : 3 <= length [[1%float]; [2%float]; [3%float]]) by (cbn; lia).
  split; [exact Toy_valid_shuffle|]. split; [exact Toy_predicts_each_row|].
  split; [exact Hxy|]. split; [exact H2|]. split; [exact Hn|].
  exact (get_cross_validation_models_size Toy.RandomState Toy.rng_shuffle
           Toy.fit Toy.predict 0 [[1%float]; [2%float]; [3%float]]
           [10%float; 20%float; 30%float] Toy.mean_squared_error 3 2 [Toy.mean_model] 0
           Toy_valid_shuffle Toy_predicts_each_row Hxy H2 Hn).
Defined.

(** ** Rejected arguments *)

Section Rejected.
Context {num : Type} `{Num num} {rng : Type}.
Variable RandomState : nat -> rng.
Variable rng_shuffle : rng -> nat -> list nat * rng.
Variable fit : addr -> list (list num) -> list num -> heap num -> heap num.
Variable predict : addr -> list (list num) -> heap num -> list num.
Hypothesis Hshuffle : valid_shuffle RandomState rng_shuffle.

(** The first pass of the outer loop stops with [ValueError] when the
    arrays differ in length or the number of folds does not fit. *)
Lemma cv_repeat_rejects collect model metric folds (st : @cv_state num rng) r :
  length (cv_x st) <> length (cv_y st) \/ folds <= 1 \/ length (cv_x st) < folds ->
  cv_repeat RandomState rng_shuffle fit predict collect model metric folds st r
  = Raise ValueError.
Proof.
  intros Hbad. unfold cv_repeat. rewrite shuffle_seeded.
  destruct (length (cv_x st) =? length (cv_y st)) eqn:Hlen; cbn [negb]; [|done].
  apply Nat.eqb_eq in Hlen.
  pose proof (seeded_perm_in_range RandomState rng_shuffle Hshuffle r (length (cv_x st)))
    as Hrange.
  pose proof (seeded_perm_length RandomState rng_shuffle Hshuffle r (length (cv_x st)))
    as Hplen.
  rewrite !take_in_range by (by rewrite <- ?Hlen). rewrite !bind_Ok.
  rewrite KFold_split_unshuffled, length_gather, Hplen by done.
  destruct Hbad as [Hbad|[Hbad|Hbad]]; [done| |].
  - by apply Nat.leb_le in Hbad as ->.
  - apply Nat.ltb_lt in Hbad as ->. by destruct (folds <=? 1).
Qed.

Lemma cv_loop_rejects collect model x y metric folds repeats h g :
  0 < repeats ->
  length x <> length y \/ folds <= 1 \/ length x < folds ->
  cv_loop RandomState rng_shuffle fit predict collect model x y metric folds repeats h g
  = Raise ValueError.
Proof.
  intros Hrep Hbad. unfold cv_loop.
  destruct repeats as [|k]; [lia|]. cbn [seq for_each].
  by rewrite cv_repeat_rejects.
Qed.
End Rejected.

(** X2. With at least one repeat, both cross-validation routines raise
    [ValueError] when the targets do not have the length of the features,
    when [folds] is less than two, or when there are fewer rows than
    folds. *)
Theorem cross_validation_rejects_bad_arguments
    {num : Type} `{Num num} {rng : Type}
    (RandomState : nat -> rng) (rng_shuffle : rng -> nat -> list nat * rng)
    (fit : addr -> list (list num) -> list num -> heap num -> heap num)
    (predict : addr -> list (list num) -> heap num -> list num)
    (model : addr) (x : list (list num)) (y : list num)
    (metric : pyval num -> pyval num -> num) (folds repeats : nat)
    (h : heap num) (g : rng) :
  valid_shuffle RandomState rng_shuffle ->
  0 < repeats ->
  length x <> length y \/ folds <= 1 \/ length x < folds ->
  get_cross_validation_models RandomState rng_shuffle fit predict
    model x y metric folds repeats h g = Raise ValueError
  /\ cross_validate RandomState rng_shuffle fit predict
       model x y metric folds repeats h g = Raise ValueError.
Proof.
  intros Hshuffle Hrep Hbad. unfold get_cross_validation_models, cross_validate.
  by rewrite !(cv_loop_rejects RandomState rng_shuffle fit predict Hshuffle).
Qed.

Lemma cross_validation_rejects_bad_arguments_witness :
  valid_shuffle Toy.RandomState Toy.rng_shuffle
  /\ 0 < 3
  /\ (length [[1%float]; [2%float]] <> length [10%float; 20%float]
      \/ 5 <= 1 \/ length [[1%float]; [2%float]] < 5)
  /\ get_cross_validation_models Toy.RandomState Toy.rng_shuffle Toy.fit Toy.predict
       0 [[1%float]; [2%float]] [10%float; 20%float] Toy.mean_squared_error 5 3
       [Toy.mean_model] 0 = Raise ValueError
  /\ cross_validate Toy.RandomState Toy.rng_shuffle Toy.fit Toy.predict
       0 [[1%float]; [2%float]] [10%float; 20%float] Toy.mean_squared_error 5 3
       [Toy.mean_model] 0 = Raise ValueError.
Proof.
  assert (Hrep : 0 < 3) by lia.
  assert (Hbad : length [[1%float]; [2%float]] <> length [10%float; 20%float]
                 \/ 5 <= 1 \/ length [[1%float]; [2%float]] < 5)
    by (right; right; cbn; lia).
  split; [exact Toy_valid_shuffle|]. split; [exact Hrep|]. split; [exact Hbad|].
  exact (cross_validation_rejects_bad_arguments Toy.RandomState Toy.rng_shuffle
           Toy.fit Toy.predict 0 [[1%float]; [2%float]] [10%float; 20%float]
           Toy.mean_squared_error 5 3 [Toy.mean_model] 0
           Toy_valid_shuffle Hrep Hbad).
Defined.

(** ** The weight objective and mismatched lengths *)

Lemma zip_with_firstn {A B C} (f : A -> B -> C) (l : list A) (k : list B) :
  zip_with f l k = zip_with f (firstn (length k) l) (firstn (length l) k).
Proof.
  revert k. induction l as [|a l IH]; intros [|b k]; cbn; try done.
  by rewrite <- IH.
Qed.

(** X3. The objective pairs weights and prediction rows with [zip]: only
    the first [min (len weights) (len model_preds)] of each are used, so
    surplus weights or surplus rows are ignored without an error. *)
Theorem evaluate_ensemble_weights_truncates
    {num : Type} `{Num num} (w : list num) (P : list (list num))
    (y : pyval num) (m : pyval num -> pyval num -> num) (maximize : bool) :
  evaluate_ensemble_weights w P y m maximize
  = evaluate_ensemble_weights (firstn (length P) w) (firstn (length w) P) y m maximize.
Proof.
  unfold evaluate_ensemble_weights.
  by rewrite (zip_with_firstn scale P w).
Qed.

(** ** An ill-sized prediction *)

Section IllSized.
Context {num : Type} `{Num num}.
Variable predict : addr -> list (list num) -> heap num -> list num.

Lemma iadd_ill_sized (a b : list num) :
  length b <> length a -> length b <> 1 -> iadd a b = Raise ValueError.
Proof.
  intros Hne H1. unfold iadd.
  apply Nat.eqb_neq in Hne as ->.
  destruct b as [|v [|v' b]]; try done.
Qed.

Lemma for_each_raise {S A} (body : S -> A -> result S) (s : S) (a : A) items e :
  body s a = Raise e -> for_each body s (a :: items) = Raise e.
Proof. intros Hb. cbn [for_each]. by rewrite Hb. Qed.
End IllSized.

(** X4. [predict] raises [ValueError] as soon as a model of the ensemble
    returns an array that has neither one entry per row of [x] nor a single
    entry, whatever the models after it are. *)
Theorem EnsembleRegressor_predict_ill_sized
    {num : Type} `{Num num}
    (predict : addr -> list (list num) -> heap num -> list num)
    (good : list addr) (bad : addr) (rest : list addr)
    (x : list (list num)) (h : heap num) :
  Forall (fun m => length (predict m x h) = length x) good ->
  length (predict bad x h) <> length x ->
  length (predict bad x h) <> 1 ->
  EnsembleRegressor_predict predict (good ++ bad :: rest) x h = Raise ValueError.
Proof.
  intros Hgood Hbad H1. unfold EnsembleRegressor_predict.
  rewrite for_each_app.
  rewrite (for_each_iadd (fun m => predict m x h)) by (by rewrite length_np_zeros).
  rewrite bind_Ok.
  rewrite (for_each_raise _ _ _ _ ValueError); [done|].
  apply iadd_ill_sized; [|done].
  rewrite length_foldl_zip_with, length_np_zeros; [done|].
  rewrite Forall_map, length_np_zeros. exact Hgood.
Qed.

Lemma EnsembleRegressor_predict_ill_sized_witness :
  Forall (fun m => length (Stub.predict m [[1%float]; [2%float]; [3%float]]
                             [Stub.model [1%float; 2%float; 3%float];
                              Stub.model [1%float; 2%float]])
                   = length [[1%float]; [2%float]; [3%float]]) [0]
  /\ length (Stub.predict 1 [[1%float]; [2%float]; [3%float]]
               [Stub.model [1%float; 2%float; 3%float]; Stub.model [1%float; 2%float]])
     <> length [[1%float]; [2%float]; [3%float]]
  /\ length (Stub.predict 1 [[1%float]; [2%float]; [3%float]]
               [Stub.model [1%float; 2%float; 3%float]; Stub.model [1%float; 2%float]])
     <> 1
  /\ EnsembleRegressor_predict Stub.predict ([0] ++ 1 :: [0])
       [[1%float]; [2%float]; [3%float]]
       [Stub.model [1%float; 2%float; 3%float]; Stub.model [1%float; 2%float]]
     = Raise ValueError.
Proof.
  assert (Hgood : Forall (fun m => length (Stub.predict m [[1%float]; [2%float]; [3%float]]
                             [Stub.model [1%float; 2%float; 3%float];
                              Stub.model [1%float; 2%float]])
                         = length [[1%float]; [2%float]; [3%float]]) [0])
    by (repeat constructor).
  assert (Hbad : length (Stub.predict 1 [[1%float]; [2%float]; [3%float]]
                   [Stub.model [1%float; 2%float; 3%float]; Stub.model [1%float; 2%float]])
                 <> length [[1%float]; [2%float]; [3%float]]) by (vm_compute; lia).
  assert (H1 : length (Stub.predict 1 [[1%float]; [2%float]; [3%float]]
                 [Stub.model [1%float; 2%float; 3%float]; Stub.model [1%float; 2%float]])
               <> 1) by (vm_compute; lia).
  split; [exact Hgood|]. split; [exact Hbad|]. split; [exact H1|].
  exact (EnsembleRegressor_predict_ill_sized Stub.predict [0] 1 [0]
           [[1%float]; [2%float]; [3%float]]
           [Stub.model [1%float; 2%float; 3%float]; Stub.model [1%float; 2%float]]
           Hgood Hbad H1).
Defined.

(** ** The callers of cross_validate *)

(** X5. [try_many_regressors] and [get_ensembles_many_regressors] never
    report a best model: each ends with the exception of the
    cross-validation of its first regressor, a [TypeError] when that
    cross-validation runs through, whatever the other regressors, the
    scores and the choice between maximum and minimum. *)
Theorem many_regressors_stop_at_first
    {num : Type} `{Num num} {rng : Type}
    (RandomState : nat -> rng) (rng_shuffle : rng -> nat -> list nat * rng)
    (fit : addr -> list (list num) -> list num -> heap num -> heap num)
    (predict : addr -> list (list num) -> heap num -> list num)
    (np_argbest : bool -> list num -> result nat)
    (first_regressor : addr) (others : list addr)
    (x : list (list num)) (y : list num) (metric : pyval num -> pyval num -> num)
    (metric_max_better : bool) (h : heap num) (g : rng) :
  try_many_regressors RandomState rng_shuffle fit predict np_argbest
    (first_regressor :: others) x y metric metric_max_better h g
  = (st ← cv_loop RandomState rng_shuffle fit predict false first_regressor x y
            metric 5 3 h g;
     Raise TypeError)
  /\ get_ensembles_many_regressors RandomState rng_shuffle fit predict np_argbest
       (first_regressor :: others) x y metric metric_max_better h g
     = (st ← cv_loop RandomState rng_shuffle fit predict false first_regressor x y
               metric 5 3 h g;
        Raise TypeError).
Proof.
  unfold try_many_regressors, get_ensembles_many_regressors, score_regressors.
  cbn [length seq zip zip_with for_each fst snd].
  rewrite cross_validate_len_mean.
  destruct (cv_loop _ _ _ _ _ _ _ _ _ _ _ _ _) as [st|e]; split; reflexivity.
Qed.

(** ** Out-of-fold predictions *)

Lemma splits_of_train_test indices n_splits n train test j :
  (train, test) ∈ splits_of indices n_splits n -> j < n ->
  (j ∈ train <-> j ∉ test).
Proof.
  unfold splits_of. intros Hin Hj.
  apply list_elem_of_fmap in Hin as (slice & Heq & _). injection Heq as -> ->.
  rewrite !list_elem_of_filter, elem_of_seq.
  destruct (mem j slice); cbn; intuition lia.
Qed.

Section OutOfFold.
Context {num : Type} `{Num num} {rng : Type}.
Variable RandomState : nat -> rng.
Variable rng_shuffle : rng -> nat -> list nat * rng.
Variable fit : addr -> list (list num) -> list num -> heap num -> heap num.
Variable predict : addr -> list (list num) -> heap num -> list num.
Hypothesis Hshuffle : valid_shuffle RandomState rng_shuffle.
Hypothesis Hpredict : predicts_each_row predict.

Lemma aligned_out_of_fold collect model folds xr yr y_pred :
  aligned fit predict collect model folds xr yr y_pred ->
  out_of_fold fit predict collect model folds xr yr y_pred.
Proof.
  intros Haligned i Hi.
  destruct (Haligned i Hi) as (train & test & k & h0 & Hin & Hk & Hval).
  exists train, test, k, h0. split; [done|]. split; [done|].
  split; [|split; [|done]].
  - rewrite (splits_of_train_test _ _ _ _ _ i Hin Hi).
    intros Hnot. apply Hnot. by eapply list_elem_of_lookup_2.
  - intros j Hj. by eapply splits_of_train_test.
Qed.

(** The pass for repeat [r] runs to its end and leaves an aligned buffer. *)
Lemma cv_after_S_aligned collect model x y metric folds repeats h g r :
  length x = length y -> 2 <= folds -> folds <= length x -> r < repeats ->
  exists st,
    cv_after RandomState rng_shuffle fit predict (S r) collect model x y metric
      folds repeats h g = Ok st
    /\ aligned fit predict collect model folds (cv_x st) (cv_y st) (cv_y_pred st).
Proof.
  intros Hxy Hfolds2 Hfoldsn Hr.
  destruct (cv_after_ok RandomState rng_shuffle fit predict Hshuffle Hpredict
              collect model metric folds r x y repeats h g Hxy Hfolds2 Hfoldsn
              ltac:(lia)) as (st0 & Hrun0 & Hsized0 & Hscore0 & _).
  destruct (cv_repeat_ok RandomState rng_shuffle fit predict Hshuffle Hpredict
              collect model metric folds (length x) st0 r Hsized0 ltac:(lia)
              Hfolds2 Hfoldsn)
    as (st' & Hrun' & _ & _ & _ & _ & _ & _ & Haligned).
  exists st'. split; [|exact Haligned].
  unfold cv_after in *. rewrite seq_S, for_each_app, Hrun0, bind_Ok.
  cbn [for_each plus]. by rewrite Hrun', bind_Ok.
Qed.
End OutOfFold.

(** X8. In both loops every prediction that is scored is out of fold: at
    the end of each pass, the buffer entry of a row is the prediction made
    for it by the model fitted on the training rows of the one fold that
    tests the row, and those are exactly the rows outside that fold, so
    the row itself is not among them. *)
Theorem cv_predictions_out_of_fold
    {num : Type} `{Num num} {rng : Type}
    (RandomState : nat -> rng) (rng_shuffle : rng -> nat -> list nat * rng)
    (fit : addr -> list (list num) -> list num -> heap num -> heap num)
    (predict : addr -> list (list num) -> heap num -> list num)
    (collect : bool) (model : addr) (x : list (list num)) (y : list num)
    (metric : pyval num -> pyval num -> num) (folds repeats : nat)
    (h : heap num) (g : rng) (r : nat) :
  valid_shuffle RandomState rng_shuffle -> predicts_each_row predict ->
  length x = length y -> 2 <= folds -> folds <= length x -> r < repeats ->
  exists st,
    cv_after RandomState rng_shuffle fit predict (S r) collect model x y metric
      folds repeats h g = Ok st
    /\ out_of_fold fit predict collect model folds (cv_x st) (cv_y st) (cv_y_pred st).
Proof.
  intros Hshuffle Hpredict Hxy Hfolds2 Hfoldsn Hr.
  destruct (cv_after_S_aligned RandomState rng_shuffle fit predict Hshuffle Hpredict
              collect model x y metric folds repeats h g r Hxy Hfolds2 Hfoldsn Hr)
    as (st & Hrun & Haligned).
  exists st. split; [exact Hrun|]. by apply aligned_out_of_fold.
Qed.

Lemma cv_predictions_out_of_fold_witness :
  valid_shuffle Toy.RandomState Toy.rng_shuffle
  /\ predicts_each_row (Toy.predict (num:=float))
  /\ length [[1%float]; [2%float]; [3%float]] = length [10%float; 20%float; 30%float]
  /\ 2 <= 3 /\ 3 <= length [[1%float]; [2%float]; [3%float]] /\ 0 < 1
  /\ exists st,
       cv_after Toy.RandomState Toy.rng_shuffle Toy.fit Toy.predict 1 false 0
         [[1%float]; [2%float]; [3%float]] [10%float; 20%float; 30%float]
         Toy.mean_squared_error 3 1 [Toy.mean_model] 0 = Ok st
       /\ out_of_fold Toy.fit Toy.predict false 0 3 (cv_x st) (cv_y st) (cv_y_pred st).
Proof.
  assert (Hxy : length [[1%float]; [2%float]; [3%float]]
                = length [10%float; 20%float; 30%float]) by reflexivity.
  assert (H2 : 2 <= 3) by lia.
  assert (Hn : 3 <= length [[1%float]; [2%float]; [3%float]]) by (cbn; lia).
  assert (Hr : 0 < 1) by lia.
  split; [exact Toy_valid_shuffle|]. split; [exact Toy_predicts_each_row|].
  split; [exact Hxy|]. split; [exact H2|]. split; [exact Hn|]. split; [exact Hr|].
  exact (cv_predictions_out_of_fold Toy.RandomState Toy.rng_shuffle
           Toy.fit Toy.predict false 0 [[1%float]; [2%float]; [3%float]]
           [10%float; 20%float; 30%float] Toy.mean_squared_error 3 1 [Toy.mean_model] 0 0
           Toy_valid_shuffle Toy_predicts_each_row Hxy H2 Hn Hr).
Defined.

(** ** The prediction buffer is rewritten by every pass *)

Section Buffer.
Context {num : Type} `{Num num} {rng : Type}.
Variable RandomState : nat -> rng.
Variable rng_shuffle : rng -> nat -> list nat * rng.
Variable fit : addr -> list (list num) -> list num -> heap num -> heap num.
Variable predict : addr -> list (list num) -> heap num -> list num.
Hypothesis Hshuffle : valid_shuffle RandomState rng_shuffle.
Hypothesis Hpredict : predicts_each_row predict.
Variables (collect : bool) (model : addr) (metric : pyval num -> pyval num -> num).
Variable folds : nat.

Implicit Types (st : @cv_state num rng) (b : list num).

Lemma set_y_pred_same st : set_y_pred (cv_y_pred st) st = st.
Proof. by destruct st. Qed.

(** The inner loop run from two buffers: the states agree but for the
    buffer, and the buffers agree wherever a fold has written or they
    agreed before. *)
Lemma cv_folds_two_buffers n splits st b :
  cv_sized n st -> length b = n ->
  Forall (fun sp => Forall (fun i => i < n) sp.1 /\ Forall (fun i => i < n) sp.2) splits ->
  NoDup (concat (map snd splits)) ->
  exists st1 st2,
    for_each (cv_fold fit predict collect model) st splits = Ok st1
    /\ for_each (cv_fold fit predict collect model) (set_y_pred b st) splits = Ok st2
    /\ st2 = set_y_pred (cv_y_pred st2) st1
    /\ length (cv_y_pred st1) = n /\ length (cv_y_pred st2) = n
    /\ forall i, i ∈ concat (map snd splits) \/ cv_y_pred st !! i = b !! i ->
         cv_y_pred st1 !! i = cv_y_pred st2 !! i.
Proof.
  revert st b. induction splits as [|[train test] splits IH]; intros st b Hsized Hb Hrange Hnd.
  - exists st, (set_y_pred b st). destruct Hsized as (Hx & Hy & Hp).
    repeat split; try done.
    intros i [Hi|Hi]; [by apply elem_of_nil in Hi|done].
  - apply Forall_cons in Hrange as [[Htrain Htest] Hrange].
    cbn [map concat snd] in Hnd. apply NoDup_app in Hnd as (Hndt & _ & Hnd).
    assert (Hsized2 : cv_sized n (set_y_pred b st)).
    { destruct Hsized as (Hx & Hy & Hp). by repeat split. }
    cbn [for_each].
    rewrite (cv_fold_ok fit predict Hpredict collect model n st train test
               Hsized Htrain Htest).
    rewrite (cv_fold_ok fit predict Hpredict collect model n (set_y_pred b st) train test
               Hsized2 Htrain Htest).
    rewrite !bind_Ok. cbn [set_y_pred cv_x cv_y cv_y_pred cv_score cv_models cv_heap
                             cv_rng cv_splits].
    set (vals := predict model (gather (cv_x st) test) _).
    set (st1 := {| cv_x := cv_x st; cv_y_pred := scatter (cv_y_pred st) test vals |}).
    destruct Hsized as (Hx & Hy & Hp).
    assert (Hvals : length vals = length test).
    { unfold vals. rewrite Hpredict, length_gather; [done|by rewrite Hx]. }
    assert (Hsized1 : cv_sized n st1).
    { repeat split; cbn; try done. by rewrite length_scatter. }
    assert (Hb1 : length (scatter b test vals) = n) by (by rewrite length_scatter).
    destruct (IH st1 (scatter b test vals) Hsized1 Hb1 Hrange Hnd)
      as (st1' & st2' & Hrun1 & Hrun2 & Heq & Hlen1 & Hlen2 & Hagree).
    exists st1', st2'. split; [exact Hrun1|]. split; [exact Hrun2|].
    split; [exact Heq|]. split; [exact Hlen1|]. split; [exact Hlen2|].
    intros i Hi. apply Hagree. cbn [map concat snd] in Hi.
    destruct (decide (i ∈ test)) as [Hit|Hit].
    + right. apply list_elem_of_lookup_1 in Hit as [k Hk]. cbn [st1 cv_y_pred].
      rewrite (scatter_lookup (cv_y_pred st) test vals k i) by (by rewrite ?Hp).
      by rewrite (scatter_lookup b test vals k i) by (by rewrite ?Hb).
    + destruct Hi as [Hi|Hi].
      * apply elem_of_app in Hi as [Hi|Hi]; [done|by left].
      * right. cbn [st1 cv_y_pred]. by rewrite !scatter_lookup_other.
Qed.
End Buffer.

(** X9. A pass of the outer loop rewrites the whole prediction buffer: run
    from any buffer of the right length in place of the one left by the
    previous pass, it ends in the same state, with the same predictions
    and the same score. No entry of an earlier pass, and none of the
    initial zeros, is ever scored. *)
Theorem cv_repeat_rewrites_buffer
    {num : Type} `{Num num} {rng : Type}
    (RandomState : nat -> rng) (rng_shuffle : rng -> nat -> list nat * rng)
    (fit : addr -> list (list num) -> list num -> heap num -> heap num)
    (predict : addr -> list (list num) -> heap num -> list num)
    (collect : bool) (model : addr) (metric : pyval num -> pyval num -> num)
    (folds n : nat) (st : @cv_state num rng) (b : list num) (r : nat) :
  valid_shuffle RandomState rng_shuffle -> predicts_each_row predict ->
  cv_sized n st -> length b = n -> r < length (cv_score st) ->
  2 <= folds -> folds <= n ->
  exists st',
    cv_repeat RandomState rng_shuffle fit predict collect model metric folds st r = Ok st'
    /\ cv_repeat RandomState rng_shuffle fit predict collect model metric folds
         (set_y_pred b st) r = Ok st'.
Proof.
  intros Hshuffle Hpredict Hsized Hb Hr Hfolds2 Hfoldsn.
  pose proof Hsized as (Hx & Hy & Hp).
  unfold cv_repeat. rewrite !shuffle_seeded.
  cbn [set_y_pred cv_x cv_y cv_y_pred cv_score cv_models cv_heap cv_rng cv_splits].
  rewrite Hx, Hy, Nat.eqb_refl. cbn [negb].
  pose proof (seeded_perm_in_range RandomState rng_shuffle Hshuffle r n) as Hrange.
  pose proof (seeded_perm_length RandomState rng_shuffle Hshuffle r n) as Hlen.
  set (p := seeded_perm RandomState rng_shuffle r n) in *.
  rewrite !take_in_range by (by rewrite ?Hx, ?Hy). rewrite !bind_Ok.
  assert (Hx' : length (gather (cv_x st) p) = n)
    by (rewrite length_gather; [done|by rewrite Hx]).
  assert (Hy' : length (gather (cv_y st) p) = n)
    by (rewrite length_gather; [done|by rewrite Hy]).
  rewrite !KFold_split_unshuffled, Hx'.
  assert (Hk1 : (folds <=? 1) = false) by (apply Nat.leb_gt; lia).
  assert (Hk2 : (n <? folds) = false) by (apply Nat.ltb_ge; lia).
  rewrite Hk1, Hk2, !bind_Ok.
  set (st0 := {| cv_x := gather (cv_x st) p; cv_y_pred := cv_y_pred st |}).
  assert (Hsized0 : cv_sized n st0) by (by repeat split).
  destruct (cv_folds_two_buffers fit predict Hpredict collect model n
              (splits_of (seq 0 n) folds n) st0 b Hsized0 Hb
              (splits_of_in_range _ _ _) (NoDup_splits_of _ _))
    as (st1 & st2 & Hrun1 & Hrun2 & Heq & Hlen1 & Hlen2 & Hagree).
  assert (Hsame : cv_y_pred st1 = cv_y_pred st2).
  { apply list_eq. intros i. destruct (decide (i < n)) as [Hi|Hi].
    - apply Hagree. left.
      destruct (splits_of_cover folds n i ltac:(lia) Hi) as (sp & Hin & Hmem).
      apply elem_of_concat. exists sp.2. split; [|done].
      apply list_elem_of_fmap. by exists sp.
    - rewrite !lookup_ge_None_2 by lia. done. }
  assert (Hst : st2 = st1) by (rewrite Heq, <- Hsame; apply set_y_pred_same).
  change (set_y_pred b st0) with
    {| cv_x := gather (cv_x st) p; cv_y := gather (cv_y st) p; cv_y_pred := b;
       cv_score := cv_score st; cv_models := cv_models st; cv_heap := cv_heap st;
       cv_rng := cv_rng st; cv_splits := cv_splits st |} in Hrun2.
  rewrite Hrun1, Hrun2, Hst, !bind_Ok.
  destruct (cv_folds_ok fit predict Hpredict collect model n
              (splits_of (seq 0 n) folds n) st0 Hsized0
              (splits_of_in_range _ _ _) (NoDup_splits_of _ _))
    as (st1' & Hrun1' & _ & _ & _ & Hsc & _).
  rewrite Hrun1 in Hrun1'. injection Hrun1' as <-.
  rewrite setitem1_in_range by (by rewrite Hsc).
  rewrite bind_Ok. eexists. split; reflexivity.
Qed.

Lemma cv_repeat_rewrites_buffer_witness :
  valid_shuffle Toy.RandomState Toy.rng_shuffle
  /\ predicts_each_row (Toy.predict (num:=float))
  /\ cv_sized 3 (cv_init [[1%float]; [2%float]; [3%float]]
                   [10%float; 20%float; 30%float] 1 [Toy.mean_model] 0)
  /\ length [7%float; 8%float; 9%float] = 3
  /\ 0 < length (cv_score (cv_init [[1%float]; [2%float]; [3%float]]
                             [10%float; 20%float; 30%float] 1 [Toy.mean_model] 0))
  /\ 2 <= 3 /\ 3 <= 3
  /\ exists st',
       cv_repeat Toy.RandomState Toy.rng_shuffle Toy.fit Toy.predict true 0
         Toy.mean_squared_error 3
         (cv_init [[1%float]; [2%float]; [3%float]] [10%float; 20%float; 30%float] 1
            [Toy.mean_model] 0) 0 = Ok st'
       /\ cv_repeat Toy.RandomState Toy.rng_shuffle Toy.fit Toy.predict true 0
            Toy.mean_squared_error 3
            (set_y_pred [7%float; 8%float; 9%float]
               (cv_init [[1%float]; [2%float]; [3%float]] [10%float; 20%float; 30%float] 1
                  [Toy.mean_model] 0)) 0 = Ok st'.
Proof.
  assert (Hsized : cv_sized 3 (cv_init [[1%float]; [2%float]; [3%float]]
                     [10%float; 20%float; 30%float] 1 [Toy.mean_model] 0))
    by (by repeat split).
  assert (Hb : length [7%float; 8%float; 9%float] = 3) by reflexivity.
  assert (Hr : 0 < length (cv_score (cv_init [[1%float]; [2%float]; [3%float]]
                 [10%float; 20%float; 30%float] 1 [Toy.mean_model] 0))) by (cbn; lia).
  assert (H2 : 2 <= 3) by lia.
  assert (Hn : 3 <= 3) by lia.
  split; [exact Toy_valid_shuffle|]. split; [exact Toy_predicts_each_row|].
  split; [exact Hsized|]. split; [exact Hb|]. split; [exact Hr|].
  split; [exact H2|]. split; [exact Hn|].
  exact (cv_repeat_rewrites_buffer Toy.RandomState Toy.rng_shuffle Toy.fit Toy.predict
           true 0 Toy.mean_squared_error 3 3
           (cv_init [[1%float]; [2%float]; [3%float]] [10%float; 20%float; 30%float] 1
              [Toy.mean_model] 0)
           [7%float; 8%float; 9%float] 0
           Toy_valid_shuffle Toy_predicts_each_row Hsized Hb Hr H2 Hn).
Defined.

(** ** The members of the collected ensemble *)

Section Members.
Context {num : Type} `{Num num} {rng : Type}.
Variable RandomState : nat -> rng.
Variable rng_shuffle : rng -> nat -> list nat * rng.
Variable fit : addr -> list (list num) -> list num -> heap num -> heap num.
Variable predict : addr -> list (list num) -> heap num -> list num.
Hypothesis Hshuffle : valid_shuffle RandomState rng_shuffle.
Hypothesis Hpredict : predicts_each_row predict.
Hypothesis Hstore : fit_keeps_store fit.
Variables (model : addr) (metric : pyval num -> pyval num -> num) (folds : nat).

(** [first_new] bounds the objects that existed before the call; [inv]
    is a property of a stored member that later fits and copies keep. *)
Variable first_new : nat.
Hypothesis Hmodel : model < first_new.
Variable inv : addr -> heap num -> Prop.
Hypothesis inv_stable :
  forall c xt yt h,
    first_new <= c -> c < length h -> inv c h ->
    inv c (after_fit fit true model xt yt h).

Implicit Types (st : @cv_state num rng).

Lemma length_after_fit_collect xt yt (h : heap num) :
  length (after_fit fit true model xt yt h) = S (length (fit model xt yt h)).
Proof. unfold after_fit, copy_copy. cbn [fst]. rewrite length_app. cbn. lia. Qed.

Lemma cv_folds_members n splits st st' :
  cv_sized n st ->
  Forall (fun sp => Forall (fun i => i < n) sp.1 /\ Forall (fun i => i < n) sp.2) splits ->
  first_new <= length (cv_heap st) ->
  Forall (fun c => first_new <= c /\ c < length (cv_heap st)) (cv_models st) ->
  NoDup (cv_models st) ->
  Forall (fun c => inv c (cv_heap st)) (cv_models st) ->
  (forall train test h0,
     (train, test) ∈ splits -> first_new <= length h0 ->
     inv (length (fit model (gather (cv_x st) train) (gather (cv_y st) train) h0))
         (after_fit fit true model (gather (cv_x st) train) (gather (cv_y st) train) h0)) ->
  for_each (cv_fold fit predict true model) st splits = Ok st' ->
  first_new <= length (cv_heap st')
  /\ Forall (fun c => first_new <= c /\ c < length (cv_heap st')) (cv_models st')
  /\ NoDup (cv_models st')
  /\ Forall (fun c => inv c (cv_heap st')) (cv_models st').
Proof.
  revert st. induction splits as [|[train test] splits IH];
    intros st Hsized Hrange Hlen Hmembers Hnd Hinv Hnew Hrun.
  - cbn in Hrun. by injection Hrun as <-.
  - apply Forall_cons in Hrange as [[Htrain Htest] Hrange].
    cbn [for_each] in Hrun.
    rewrite (cv_fold_ok fit predict Hpredict true model n st train test
               Hsized Htrain Htest), bind_Ok in Hrun.
    set (xt := gather (cv_x st) train) in *. set (yt := gather (cv_y st) train) in *.
    pose proof (Hstore model xt yt (cv_heap st)) as Hgrow.
    pose proof (length_after_fit_collect xt yt (cv_heap st)) as Hafter.
    destruct Hsized as (Hx & Hy & Hp).
    refine (IH _ _ _ _ _ _ _ _ Hrun);
      cbn [cv_x cv_y cv_y_pred cv_heap cv_models].
    + repeat split; cbn; try done. rewrite length_scatter. exact Hp.
    + exact Hrange.
    + lia.
    + apply Forall_app. split.
      * eapply Forall_impl; [exact Hmembers|]. intros c [Hc1 Hc2]. lia.
      * repeat constructor; lia.
    + apply NoDup_app. split; [exact Hnd|]. split; [|apply NoDup_singleton].
      intros c Hc Hin. apply list_elem_of_singleton in Hin.
      rewrite Forall_forall in Hmembers. destruct (Hmembers c Hc). lia.
    + apply Forall_app. split.
      * rewrite Forall_forall in Hmembers, Hinv. apply Forall_forall. intros c Hc.
        destruct (Hmembers c Hc). apply inv_stable; [done|done|by apply Hinv].
      * repeat constructor. apply (Hnew train test); [apply list_elem_of_here|done].
    + intros train' test' h0 Hin Hh0.
      apply (Hnew train' test'); [by apply list_elem_of_further|done].
Qed.

(** A pass of the collecting loop is its inner loop followed by the
    score. *)
Lemma cv_repeat_inner n st r st' :
  cv_sized n st -> 2 <= folds -> folds <= n ->
  cv_repeat RandomState rng_shuffle fit predict true model metric folds st r = Ok st' ->
  exists mid,
    for_each (cv_fold fit predict true model)
      {| cv_x := gather (cv_x st) (seeded_perm RandomState rng_shuffle r n);
         cv_y := gather (cv_y st) (seeded_perm RandomState rng_shuffle r n);
         cv_y_pred := cv_y_pred st; cv_score := cv_score st;
         cv_models := cv_models st; cv_heap := cv_heap st;
         cv_rng := cv_rng st; cv_splits := cv_splits st |}
      (splits_of (seq 0 n) folds n) = Ok mid
    /\ cv_models st' = cv_models mid /\ cv_heap st' = cv_heap mid.
Proof.
  intros (Hx & Hy & Hp) Hfolds2 Hfoldsn. unfold cv_repeat.
  rewrite shuffle_seeded, Hx, Hy, Nat.eqb_refl. cbn [negb].
  pose proof (seeded_perm_in_range RandomState rng_shuffle Hshuffle r n) as Hrange.
  pose proof (seeded_perm_length RandomState rng_shuffle Hshuffle r n) as Hlen.
  set (p := seeded_perm RandomState rng_shuffle r n) in *.
  rewrite !take_in_range by (by rewrite ?Hx, ?Hy). rewrite !bind_Ok.
  rewrite KFold_split_unshuffled, length_gather by (by rewrite Hx).
  assert (Hk1 : (folds <=? 1) = false) by (apply Nat.leb_gt; lia).
  assert (Hk2 : (n <? folds) = false) by (apply Nat.ltb_ge; lia).
  rewrite Hlen, Hk1, Hk2, bind_Ok.
  destruct (for_each _ _ _) as [mid|e]; [|done]. rewrite bind_Ok.
  destruct (setitem1 _ _ _) as [score|e]; [|done]. rewrite bind_Ok.
  intros Hret. injection Hret as <-. by exists mid.
Qed.

Lemma pass_rows {A} (a : list A) k :
  gather (gather a (match k with
                    | 0 => seq 0 (length a)
                    | S r => cum_order RandomState rng_shuffle r (length a)
                    end))
         (seeded_perm RandomState rng_shuffle k (length a))
  = gather a (cum_order RandomState rng_shuffle k (length a)).
Proof.
  rewrite gather_gather.
  - f_equal. destruct k as [|r]; [|reflexivity].
    apply gather_seq_indices, seeded_perm_in_range, Hshuffle.
  - destruct k as [|r]; [|by apply cum_order_sized].
    apply Forall_forall. intros i Hi. apply elem_of_seq in Hi. lia.
Qed.

Lemma cv_after_members k x y repeats h g :
  length x = length y -> 2 <= folds -> folds <= length x -> k <= repeats ->
  first_new <= length h ->
  (forall r train test h0,
     r < repeats ->
     (train, test) ∈ splits_of (seq 0 (length x)) folds (length x) ->
     first_new <= length h0 ->
     inv (length (fit model
                    (gather (gather x (cum_order RandomState rng_shuffle r (length x))) train)
                    (gather (gather y (cum_order RandomState rng_shuffle r (length x))) train)
                    h0))
         (after_fit fit true model
            (gather (gather x (cum_order RandomState rng_shuffle r (length x))) train)
            (gather (gather y (cum_order RandomState rng_shuffle r (length x))) train)
            h0)) ->
  exists st,
    cv_after RandomState rng_shuffle fit predict k true model x y metric folds repeats h g
    = Ok st
    /\ first_new <= length (cv_heap st)
    /\ Forall (fun c => first_new <= c /\ c < length (cv_heap st)) (cv_models st)
    /\ NoDup (cv_models st)
    /\ Forall (fun c => inv c (cv_heap st)) (cv_models st).
Proof.
  intros Hxy Hfolds2 Hfoldsn Hk Hh Hnew. induction k as [|k IH].
  - eexists. split; [reflexivity|]. cbn.
    split; [exact Hh|]. split; [constructor|]. split; constructor.
  - destruct IH as (st & Hrun & Hlen & Hmembers & Hnd & Hinv); [lia|].
    destruct (cv_after_ok RandomState rng_shuffle fit predict Hshuffle Hpredict
                true model metric folds k x y repeats h g Hxy Hfolds2 Hfoldsn
                ltac:(lia)) as (st0 & Hrun0 & Hsized & Hscore & _ & Hx & Hy).
    rewrite Hrun in Hrun0. injection Hrun0 as <-.
    destruct (cv_repeat_ok RandomState rng_shuffle fit predict Hshuffle Hpredict
                true model metric folds (length x) st k Hsized ltac:(lia)
                Hfolds2 Hfoldsn) as (st' & Hrun' & _).
    destruct (cv_repeat_inner (length x) st k st' Hsized Hfolds2 Hfoldsn Hrun')
      as (mid & Hmid & Hmodels & Hheap).
    exists st'. split.
    { unfold cv_after in *. rewrite seq_S, for_each_app, Hrun, bind_Ok.
      cbn [for_each plus]. by rewrite Hrun', bind_Ok. }
    rewrite Hmodels, Hheap.
    refine (cv_folds_members (length x) _ _ _ _ _ _ _ _ _ _ Hmid);
      cbn [cv_x cv_y cv_y_pred cv_heap cv_models]; try done.
    + destruct Hsized as (Hsx & Hsy & Hsp).
      pose proof (seeded_perm_in_range RandomState rng_shuffle Hshuffle k (length x)).
      pose proof (seeded_perm_length RandomState rng_shuffle Hshuffle k (length x)).
      repeat split; cbn; [| |done];
        (rewrite length_gather; [done|by rewrite ?Hsx, ?Hsy]).
    + apply splits_of_in_range.
    + intros train test h0 Hin Hh0. rewrite Hx, Hy.
      rewrite (pass_rows x k).
      assert (Hyrows := pass_rows y k). rewrite <- Hxy in Hyrows. rewrite Hyrows.
      apply (Hnew k train test); [lia|done|done].
Qed.
End Members.

Section FlatModels.
Context {num : Type} `{Num num}.
Variable learn : list (list num) -> list num -> gmap string num -> gmap string num.
Variable estimate : gmap string num -> list (list num) -> list num.

Lemma Flat_fit_keeps_others : fit_keeps_others (Flat.fit learn).
Proof.
  intros m x y h. unfold Flat.fit, heap, addr in *. split.
  - by rewrite length_alter.
  - intros a Ha _. by apply list_lookup_alter_ne.
Qed.

Lemma Flat_predict_reads_own : predict_reads_own (Flat.predict estimate).
Proof. intros a b x h h' Heq. unfold Flat.predict. by rewrite Heq. Qed.

Lemma Flat_predicts_each_row :
  (forall s x, length (estimate s x) = length x) ->
  predicts_each_row (Flat.predict estimate).
Proof. intros Hrows m x h. unfold Flat.predict. apply Hrows. Qed.
End FlatModels.

Lemma length_mean_estimate {num : Type} `{Num num} (s : gmap string num)
    (x : list (list num)) :
  length (Flat.mean_estimate s x) = length x.
Proof. apply length_replicate. Qed.

Lemma fit_keeps_others_store {num : Type} `{Num num}
    (fit : addr -> list (list num) -> list num -> heap num -> heap num) :
  fit_keeps_others fit -> fit_keeps_store fit.
Proof. intros Hfit m x y h. apply Hfit. Qed.

Lemma Toy_fit_keeps_store {num : Type} `{Num num} :
  fit_keeps_store (Toy.fit (num:=num)).
Proof.
  intros m x y h. unfold Toy.fit, heap, addr in *.
  destruct (h !! m) as [o|]; [|done].
  destruct (Toy.attr o "c"); [done|].
  destruct (Toy.attr o "final") as [[v|l|inner]|];
    by rewrite ?length_alter, ?length_insert.
Qed.

(** X10. When [fit] removes no object from the store, the members of the
    collected ensemble are objects created during the call: they are
    pairwise distinct, none of them existed before the call, and so none
    is the model that was passed in. *)
Theorem ensemble_members_are_new_objects
    {num : Type} `{Num num} {rng : Type}
    (RandomState : nat -> rng) (rng_shuffle : rng -> nat -> list nat * rng)
    (fit : addr -> list (list num) -> list num -> heap num -> heap num)
    (predict : addr -> list (list num) -> heap num -> list num)
    (model : addr) (x : list (list num)) (y : list num)
    (metric : pyval num -> pyval num -> num) (folds repeats : nat)
    (h : heap num) (g : rng) :
  valid_shuffle RandomState rng_shuffle -> predicts_each_row predict ->
  fit_keeps_store fit ->
  length x = length y -> 2 <= folds -> folds <= length x ->
  model < length h ->
  exists models st,
    get_cross_validation_models RandomState rng_shuffle fit predict
      model x y metric folds repeats h g = Ok (PyEnsemble models, st)
    /\ NoDup models
    /\ Forall (fun c => length h <= c /\ c < length (cv_heap st)) models
    /\ model ∉ models.
Proof.
  intros Hshuffle Hpredict Hstore Hxy Hfolds2 Hfoldsn Hmodel.
  destruct (cv_after_members RandomState rng_shuffle fit predict Hshuffle Hpredict
              Hstore model metric folds (length h) Hmodel (fun _ _ => True)
              ltac:(done) repeats x y repeats h g Hxy Hfolds2 Hfoldsn
              (Nat.le_refl _) (Nat.le_refl _) ltac:(done))
    as (st & Hrun & _ & Hmembers & Hnd & _).
  exists (cv_models st), st.
  split; [|split; [exact Hnd|split; [exact Hmembers|]]].
  - unfold get_cross_validation_models, cv_loop. unfold cv_after in Hrun.
    by rewrite Hrun.
  - intros Hin. rewrite Forall_forall in Hmembers.
    destruct (Hmembers model Hin). lia.
Qed.

Lemma ensemble_members_are_new_objects_witness :
  valid_shuffle Toy.RandomState Toy.rng_shuffle
  /\ predicts_each_row (Toy.predict (num:=float))
  /\ fit_keeps_store (Toy.fit (num:=float))
  /\ length [[1%float]; [2%float]] = length [10%float; 20%float]
  /\ 2 <= 2 /\ 2 <= length [[1%float]; [2%float]]
  /\ 1 < length [Toy.mean_model (num:=float); Toy.pipeline 0]
  /\ exists models st,
       get_cross_validation_models Toy.RandomState Toy.rng_shuffle Toy.fit Toy.predict
         1 [[1%float]; [2%float]] [10%float; 20%float] Toy.mean_squared_error 2 1
         [Toy.mean_model; Toy.pipeline 0] 0 = Ok (PyEnsemble models, st)
       /\ NoDup models
       /\ Forall (fun c => length [Toy.mean_model (num:=float); Toy.pipeline 0] <= c
                           /\ c < length (cv_heap st)) models
       /\ 1 ∉ models.
Proof.
  assert (Hxy : length [[1%float]; [2%float]] = length [10%float; 20%float])
    by reflexivity.
  assert (H2 : 2 <= 2) by lia.
  assert (Hn : 2 <= length [[1%float]; [2%float]]) by (cbn; lia).
  assert (Hm : 1 < length [Toy.mean_model (num:=float); Toy.pipeline 0]) by (cbn; lia).
  split; [exact Toy_valid_shuffle|]. split; [exact Toy_predicts_each_row|].
  split; [exact Toy_fit_keeps_store|].
  split; [exact Hxy|]. split; [exact H2|]. split; [exact Hn|]. split; [exact Hm|].
  exact (ensemble_members_are_new_objects Toy.RandomState Toy.rng_shuffle
           Toy.fit Toy.predict 1 [[1%float]; [2%float]] [10%float; 20%float]
           Toy.mean_squared_error 2 1 [Toy.mean_model; Toy.pipeline 0] 0
           Toy_valid_shuffle Toy_predicts_each_row Toy_fit_keeps_store Hxy H2 Hn Hm).
Defined.

Section Snapshots.
Context {num : Type} `{Num num} {rng : Type}.
Variable RandomState : nat -> rng.
Variable rng_shuffle : rng -> nat -> list nat * rng.
Variable fit : addr -> list (list num) -> list num -> heap num -> heap num.
Variable predict : addr -> list (list num) -> heap num -> list num.
Hypothesis Hfit : fit_keeps_others fit.
Hypothesis Hreads : predict_reads_own predict.
Variables (model : addr) (x : list (list num)) (y : list num) (folds repeats : nat).
Variable first_new : nat.
Hypothesis Hmodel : model < first_new.

(** A fit of the live model and the copy that follows leave every other
    object as it was. *)
Lemma after_fit_lookup_other xt yt (h : heap num) c :
  c <> model -> c < length h ->
  after_fit fit true model xt yt h !! c = h !! c.
Proof.
  intros Hc Hlen. unfold after_fit, copy_copy. cbn [fst].
  destruct (Hfit model xt yt h) as [Hgrow Hkeep].
  unfold heap, addr in *.
  rewrite lookup_app_l by lia. by apply Hkeep.
Qed.

(** The copy has the attributes of the model that was just fitted. *)
Lemma after_fit_lookup_new xt yt (h : heap num) :
  model < length h ->
  after_fit fit true model xt yt h !! length (fit model xt yt h)
  = fit model xt yt h !! model.
Proof.
  intros Hlen. unfold after_fit, copy_copy. cbn [fst].
  destruct (Hfit model xt yt h) as [Hgrow _].
  unfold heap, addr in *.
  rewrite lookup_app_r by lia. rewrite Nat.sub_diag. cbn.
  destruct (lookup_lt_is_Some_2 (fit model xt yt h) model ltac:(lia)) as [o Ho].
  by rewrite Ho.
Qed.

Lemma snapshot_stable c xt yt (h : heap num) :
  first_new <= c -> c < length h ->
  snapshot_of RandomState rng_shuffle fit predict model x y folds repeats h c ->
  snapshot_of RandomState rng_shuffle fit predict model x y folds repeats
    (after_fit fit true model xt yt h) c.
Proof.
  intros Hc Hlen (r & train & test & h0 & Hr & Hin & Hh0 & Hdict & Hpred).
  assert (Hsame : after_fit fit true model xt yt h !! c = h !! c)
    by (apply after_fit_lookup_other; [lia|done]).
  exists r, train, test, h0. split; [done|]. split; [done|]. split; [done|].
  split; [exact (eq_trans Hsame Hdict)|].
  intros x'. exact (eq_trans (Hreads c c x' _ _ Hsame) (Hpred x')).
Qed.

Lemma snapshot_new r train test (h0 : heap num) :
  r < repeats ->
  (train, test) ∈ splits_of (seq 0 (length x)) folds (length x) ->
  first_new <= length h0 ->
  snapshot_of RandomState rng_shuffle fit predict model x y folds repeats
    (after_fit fit true model
       (gather (gather x (cum_order RandomState rng_shuffle r (length x))) train)
       (gather (gather y (cum_order RandomState rng_shuffle r (length x))) train) h0)
    (length (fit model
               (gather (gather x (cum_order RandomState rng_shuffle r (length x))) train)
               (gather (gather y (cum_order RandomState rng_shuffle r (length x))) train)
               h0)).
Proof.
  intros Hr Hin Hh0. exists r, train, test, h0.
  assert (Hm : model < length h0) by lia.
  split; [done|]. split; [done|]. split; [done|].
  split; [by apply after_fit_lookup_new|].
  intros x'. apply Hreads. by apply after_fit_lookup_new.
Qed.
End Snapshots.

(** Under the two contracts every member of the collected ensemble is a
    snapshot in the store the call leaves. *)
Lemma members_are_snapshots
    {num : Type} `{Num num} {rng : Type}
    (RandomState : nat -> rng) (rng_shuffle : rng -> nat -> list nat * rng)
    (fit : addr -> list (list num) -> list num -> heap num -> heap num)
    (predict : addr -> list (list num) -> heap num -> list num)
    (model : addr) (x : list (list num)) (y : list num)
    (metric : pyval num -> pyval num -> num) (folds repeats : nat)
    (h : heap num) (g : rng) :
  valid_shuffle RandomState rng_shuffle -> predicts_each_row predict ->
  fit_keeps_others fit -> predict_reads_own predict ->
  length x = length y -> 2 <= folds -> folds <= length x ->
  model < length h ->
  exists models st,
    get_cross_validation_models RandomState rng_shuffle fit predict
      model x y metric folds repeats h g = Ok (PyEnsemble models, st)
    /\ Forall (snapshot_of RandomState rng_shuffle fit predict model x y folds repeats
                 (cv_heap st)) models.
Proof.
  intros Hshuffle Hpredict Hfit Hreads Hxy Hfolds2 Hfoldsn Hmodel.
  destruct (cv_after_members RandomState rng_shuffle fit predict Hshuffle Hpredict
              (fit_keeps_others_store fit Hfit) model metric folds (length h) Hmodel
              (fun c h' => snapshot_of RandomState rng_shuffle fit predict model x y
                             folds repeats h' c)
              (snapshot_stable RandomState rng_shuffle fit predict Hfit Hreads
                 model x y folds repeats (length h) Hmodel)
              repeats x y repeats h g Hxy Hfolds2 Hfoldsn
              (Nat.le_refl _) (Nat.le_refl _)
              (snapshot_new RandomState rng_shuffle fit predict Hfit Hreads
                 model x y folds repeats (length h) Hmodel))
    as (st & Hrun & _ & _ & _ & Hsnap).
  exists (cv_models st), st. split; [|exact Hsnap].
  unfold get_cross_validation_models, cv_loop. unfold cv_after in Hrun.
  by rewrite Hrun.
Qed.



(** ** The model after cross-validation *)

Section Folds.
Lemma fold_slices_lengths (indices sizes : list nat) :
  sum_list sizes <= length indices ->
  Forall2 (fun slice s => length slice = s) (fold_slices indices sizes) sizes.
Proof.
  revert indices. induction sizes as [|s sizes IH]; intros indices Hsum; [constructor|].
  change (sum_list (s :: sizes)) with (s + sum_list sizes) in Hsum. cbn [fold_slices].
  constructor.
  - rewrite length_take_le; [done|lia].
  - apply IH. rewrite length_drop. lia.
Qed.

Lemma fold_slices_elem (indices sizes slice : list nat) i :
  slice ∈ fold_slices indices sizes -> i ∈ slice -> i ∈ indices.
Proof.
  revert indices. induction sizes as [|s sizes IH]; intros indices Hin Hi.
  - by apply elem_of_nil in Hin.
  - cbn [fold_slices] in Hin. apply elem_of_cons in Hin as [->|Hin].
    + eapply elem_of_sublist; [exact Hi|apply sublist_take].
    + eapply elem_of_sublist; [exact (IH _ Hin Hi)|apply sublist_drop].
Qed.

Lemma fold_sizes_positive n_splits n s :
  0 < n_splits -> n_splits <= n -> s ∈ fold_sizes n_splits n -> 0 < s.
Proof.
  intros Hk Hkn Hs. unfold fold_sizes in Hs.
  apply list_elem_of_fmap in Hs as (i & -> & _).
  assert (0 < n / n_splits) by (apply Nat.div_str_pos; lia). lia.
Qed.

(** With no more folds than rows, every fold tests at least one row. *)
Lemma splits_of_test_nonempty n_splits n train test :
  0 < n_splits -> n_splits <= n ->
  (train, test) ∈ splits_of (seq 0 n) n_splits n -> test <> [].
Proof.
  intros Hk Hkn Hin. unfold splits_of in Hin.
  apply list_elem_of_fmap in Hin as (slice & Heq & Hslice). injection Heq as -> ->.
  pose proof (fold_slices_lengths (seq 0 n) (fold_sizes n_splits n)) as Hlens.
  rewrite sum_fold_sizes, length_seq in Hlens by done. specialize (Hlens (Nat.le_refl _)).
  apply list_elem_of_lookup_1 in Hslice as [j Hj].
  destruct (Forall2_lookup_l _ _ _ _ _ Hlens Hj) as (s & Hs & Hlen).
  assert (Hpos : 0 < s).
  { eapply fold_sizes_positive; [exact Hk|exact Hkn|]. by eapply list_elem_of_lookup_2. }
  destruct slice as [|i slice]; [cbn in Hlen; lia|].
  intros Hnil.
  assert (Hi : i ∈ filter (fun i0 => mem i0 (i :: slice)) (seq 0 n)).
  { apply elem_of_test_rows. split; [apply list_elem_of_here|].
    assert (Hseq : i ∈ seq 0 n).
    { eapply fold_slices_elem; [by eapply list_elem_of_lookup_2|apply list_elem_of_here]. }
    apply elem_of_seq in Hseq. lia. }
  rewrite Hnil in Hi. by apply elem_of_nil in Hi.
Qed.
End Folds.

Section LastFit.
Context {num : Type} `{Num num} {rng : Type}.
Variable RandomState : nat -> rng.
Variable rng_shuffle : rng -> nat -> list nat * rng.
Variable fit : addr -> list (list num) -> list num -> heap num -> heap num.
Variable predict : addr -> list (list num) -> heap num -> list num.
Hypothesis Hshuffle : valid_shuffle RandomState rng_shuffle.
Hypothesis Hpredict : predicts_each_row predict.
Variables (collect : bool) (model : addr) (metric : pyval num -> pyval num -> num).
Variable folds : nat.

Implicit Types (st : @cv_state num rng).

(** The inner loop ends with the fit of its last fold. *)
Lemma cv_folds_last n splits train test st st' :
  cv_sized n st ->
  Forall (fun sp => Forall (fun i => i < n) sp.1 /\ Forall (fun i => i < n) sp.2)
         (splits ++ [(train, test)]) ->
  NoDup (concat (map snd (splits ++ [(train, test)]))) ->
  for_each (cv_fold fit predict collect model) st (splits ++ [(train, test)]) = Ok st' ->
  cv_x st' = cv_x st /\ cv_y st' = cv_y st
  /\ exists h0,
       cv_heap st'
       = after_fit fit collect model (gather (cv_x st) train) (gather (cv_y st) train) h0.
Proof.
  intros Hsized Hrange Hnd Hrun.
  apply Forall_app in Hrange as [Hrange Hlast].
  apply Forall_cons in Hlast as [[Htrain Htest] _].
  rewrite map_app, concat_app in Hnd. apply NoDup_app in Hnd as (Hnd & _ & _).
  rewrite for_each_app in Hrun.
  destruct (cv_folds_ok fit predict Hpredict collect model n splits st Hsized Hrange Hnd)
    as (mid & Hmid & Hx & Hy & Hp & _).
  rewrite Hmid, bind_Ok in Hrun. cbn [for_each] in Hrun.
  assert (Hsized' : cv_sized n mid).
  { destruct Hsized as (Hsx & Hsy & _). repeat split; [by rewrite Hx|by rewrite Hy|done]. }
  rewrite (cv_fold_ok fit predict Hpredict collect model n mid train test
             Hsized' Htrain Htest), !bind_Ok in Hrun.
  injection Hrun as <-. cbn [cv_x cv_y cv_heap].
  split; [done|]. split; [done|]. exists (cv_heap mid). by rewrite Hx, Hy.
Qed.

(** A pass of either loop is its inner loop followed by the score. *)
Lemma cv_repeat_folds n st r st' :
  cv_sized n st -> 2 <= folds -> folds <= n ->
  cv_repeat RandomState rng_shuffle fit predict collect model metric folds st r = Ok st' ->
  exists mid,
    for_each (cv_fold fit predict collect model)
      {| cv_x := gather (cv_x st) (seeded_perm RandomState rng_shuffle r n);
         cv_y := gather (cv_y st) (seeded_perm RandomState rng_shuffle r n);
         cv_y_pred := cv_y_pred st; cv_score := cv_score st;
         cv_models := cv_models st; cv_heap := cv_heap st;
         cv_rng := cv_rng st; cv_splits := cv_splits st |}
      (splits_of (seq 0 n) folds n) = Ok mid
    /\ cv_x st' = cv_x mid /\ cv_y st' = cv_y mid /\ cv_heap st' = cv_heap mid.
Proof.
  intros (Hx & Hy & Hp) Hfolds2 Hfoldsn. unfold cv_repeat.
  rewrite shuffle_seeded, Hx, Hy, Nat.eqb_refl. cbn [negb].
  pose proof (seeded_perm_in_range RandomState rng_shuffle Hshuffle r n) as Hrange.
  pose proof (seeded_perm_length RandomState rng_shuffle Hshuffle r n) as Hlen.
  set (p := seeded_perm RandomState rng_shuffle r n) in *.
  rewrite !take_in_range by (by rewrite ?Hx, ?Hy). rewrite !bind_Ok.
  rewrite KFold_split_unshuffled, length_gather by (by rewrite Hx).
  assert (Hk1 : (folds <=? 1) = false) by (apply Nat.leb_gt; lia).
  assert (Hk2 : (n <? folds) = false) by (apply Nat.ltb_ge; lia).
  rewrite Hlen, Hk1, Hk2, bind_Ok.
  destruct (for_each _ _ _) as [mid|e]; [|done]. rewrite bind_Ok.
  destruct (setitem1 _ _ _) as [score|e]; [|done]. rewrite bind_Ok.
  intros Hret. injection Hret as <-. by exists mid.
Qed.
End LastFit.

(** X12. With at least one repeat, either loop leaves the model fitted on
    the training rows of the last fold of the last repeat only: the store at
    the end is the one produced by that fit (and the copy that follows it,
    when collecting). That fold tests at least one row and none of its test
    rows is a training row, so the model is never left fitted on all
    rows. *)
Theorem cv_loop_leaves_last_fold_fit
    {num : Type} `{Num num} {rng : Type}
    (RandomState : nat -> rng) (rng_shuffle : rng -> nat -> list nat * rng)
    (fit : addr -> list (list num) -> list num -> heap num -> heap num)
    (predict : addr -> list (list num) -> heap num -> list num)
    (collect : bool) (model : addr) (x : list (list num)) (y : list num)
    (metric : pyval num -> pyval num -> num) (folds repeats : nat)
    (h : heap num) (g : rng) :
  valid_shuffle RandomState rng_shuffle -> predicts_each_row predict ->
  length x = length y -> 2 <= folds -> folds <= length x -> 0 < repeats ->
  exists st train test h0,
    cv_loop RandomState rng_shuffle fit predict collect model x y metric folds repeats h g
    = Ok st
    /\ last (splits_of (seq 0 (length x)) folds (length x)) = Some (train, test)
    /\ cv_heap st
       = after_fit fit collect model (gather (cv_x st) train) (gather (cv_y st) train) h0
    /\ test <> []
    /\ forall i, i ∈ test -> i ∉ train.
Proof.
  intros Hshuffle Hpredict Hxy Hfolds2 Hfoldsn Hrep.
  destruct repeats as [|k]; [lia|].
  destruct (cv_after_ok RandomState rng_shuffle fit predict Hshuffle Hpredict
              collect model metric folds k x y (S k) h g Hxy Hfolds2 Hfoldsn
              ltac:(lia)) as (st0 & Hrun0 & Hsized0 & Hscore0 & _).
  destruct (cv_repeat_ok RandomState rng_shuffle fit predict Hshuffle Hpredict
              collect model metric folds (length x) st0 k Hsized0 ltac:(lia)
              Hfolds2 Hfoldsn) as (st & Hrun & _).
  destruct (cv_repeat_folds RandomState rng_shuffle fit predict Hshuffle
              collect model metric folds (length x) st0 k st Hsized0 Hfolds2 Hfoldsn Hrun)
    as (mid & Hmid & Hx & Hy & Hheap).
  assert (Hne : splits_of (seq 0 (length x)) folds (length x) <> []).
  { intros Hnil. apply (f_equal length) in Hnil.
    rewrite length_splits_of in Hnil. cbn in Hnil. lia. }
  apply last_is_Some in Hne as [[train test] Hlast].
  pose proof Hlast as Hsplit. apply last_Some in Hsplit as [splits Hsplits].
  pose proof (splits_of_in_range (seq 0 (length x)) folds (length x)) as Hrange.
  pose proof (NoDup_splits_of folds (length x)) as Hnd.
  assert (Hin : (train, test) ∈ splits_of (seq 0 (length x)) folds (length x)).
  { rewrite Hsplits. apply elem_of_app. right. apply list_elem_of_here. }
  rewrite Hsplits in Hmid, Hrange, Hnd.
  set (st1 := {| cv_x := gather (cv_x st0) _ |}) in Hmid.
  assert (Hsized1 : cv_sized (length x) st1).
  { destruct Hsized0 as (Hsx & Hsy & Hsp).
    pose proof (seeded_perm_in_range RandomState rng_shuffle Hshuffle k (length x)).
    pose proof (seeded_perm_length RandomState rng_shuffle Hshuffle k (length x)).
    repeat split; cbn; [| |done];
      (rewrite length_gather; [done|by rewrite ?Hsx, ?Hsy]). }
  destruct (cv_folds_last fit predict Hpredict collect model (length x) splits
              train test st1 mid Hsized1 Hrange Hnd Hmid) as (Hmx & Hmy & h0 & Hlastfit).
  exists st, train, test, h0.
  split.
  { unfold cv_loop. unfold cv_after in Hrun0.
    rewrite seq_S, for_each_app, Hrun0, bind_Ok. cbn [for_each plus].
    by rewrite Hrun, bind_Ok. }
  split; [exact Hlast|]. split.
  { rewrite Hheap, Hx, Hy, Hmx, Hmy. exact Hlastfit. }
  split.
  { eapply splits_of_test_nonempty; [|exact Hfoldsn|exact Hin]. lia. }
  intros i Hi Htrain.
  assert (Hlt : i < length x).
  { rewrite Forall_forall in Hrange.
    destruct (Hrange (train, test)) as [_ Htest].
    - apply elem_of_app. right. apply list_elem_of_here.
    - rewrite Forall_forall in Htest. by apply Htest. }
  by apply (splits_of_train_test _ _ _ _ _ i Hin Hlt) in Htrain.
Qed.

Lemma cv_loop_leaves_last_fold_fit_witness :
  valid_shuffle Toy.RandomState Toy.rng_shuffle
  /\ predicts_each_row (Toy.predict (num:=float))
  /\ length [[1%float]; [2%float]; [3%float]] = length [10%float; 20%float; 30%float]
  /\ 2 <= 2 /\ 2 <= length [[1%float]; [2%float]; [3%float]] /\ 0 < 2
  /\ exists st train test h0,
       cv_loop Toy.RandomState Toy.rng_shuffle Toy.fit Toy.predict false 0
         [[1%float]; [2%float]; [3%float]] [10%float; 20%float; 30%float]
         Toy.mean_squared_error 2 2 [Toy.mean_model] 0 = Ok st
       /\ last (splits_of (seq 0 (length [[1%float]; [2%float]; [3%float]])) 2
                  (length [[1%float]; [2%float]; [3%float]])) = Some (train, test)
       /\ cv_heap st
          = after_fit Toy.fit false 0 (gather (cv_x st) train) (gather (cv_y st) train) h0
       /\ test <> []
       /\ forall i, i ∈ test -> i ∉ train.
Proof.
  assert (Hxy : length [[1%float]; [2%float]; [3%float]]
                = length [10%float; 20%float; 30%float]) by reflexivity.
  assert (H2 : 2 <= 2) by lia.
  assert (Hn : 2 <= length [[1%float]; [2%float]; [3%float]]) by (cbn; lia).
  assert (Hr : 0 < 2) by lia.
  split; [exact Toy_valid_shuffle|]. split; [exact Toy_predicts_each_row|].
  split; [exact Hxy|]. split; [exact H2|]. split; [exact Hn|]. split; [exact Hr|].
  exact (cv_loop_leaves_last_fold_fit Toy.RandomState Toy.rng_shuffle
           Toy.fit Toy.predict false 0 [[1%float]; [2%float]; [3%float]]
           [10%float; 20%float; 30%float] Toy.mean_squared_error 2 2 [Toy.mean_model] 0
           Toy_valid_shuffle Toy_predicts_each_row Hxy H2 Hn Hr).
Defined.
